(** * Table-metadata API client (ducks/tableMetadata/api/v0.ts)

    A shallow embedding of the request orchestration functions of
    [v0.ts] and the properties stated about them.

    - JavaScript objects that the module receives by reference and writes
      to ([tableData], its column objects) live in a heap indexed by
      object identity.
    - A promise chain is a resumption tree: a node holds the HTTP call
      that is in flight and the handler that runs once its reply is
      there, so "fires only after" is the tree's structure.
    - The network is an oracle that answers every call, by the call;
      running a tree against it gives the final heap, the log of network
      events and the settled result.
    - The functions of [./helpers] and the interfaces of [interfaces]
      are not part of this file: the helpers are the variables of the
      section below, and an interface is a record of the fields this
      module touches, the rest kept as JSON. *)

From Stdlib Require Import ZArith List String Bool Lia.
From stdpp Require Import base option gmap strings list.
Import ListNotations.

Open Scope string_scope.
Open Scope Z_scope.

Set Warnings "-register-all".

(* ===================================================================== *)
(** ** JSON values *)
(* ===================================================================== *)

(** Data that crosses the wire and whose fields this module never reads
    (users, tags, dashboards, preview rows, notification bodies) is kept
    as a JSON value.  The keys of an object are distinct. *)
Inductive Json : Type :=
| JNull
| JBool (b : bool)
| JNum (n : Z)
| JStr (s : string)
| JArr (items : list Json)
| JObj (fields : list (string * Json)).

(** The object literal [{}]. *)
Definition emptyObject : Json := JObj [].

(** JavaScript truthiness of a value. *)
Definition truthy (j : Json) : bool :=
  match j with
  | JNull => false
  | JBool b => b
  | JNum n => negb (n =? 0)
  | JStr s => negb (String.eqb s EmptyString)
  | JArr _ => true
  | JObj _ => true
  end.

Fixpoint assoc (k : string) (fs : list (string * Json)) : option Json :=
  match fs with
  | [] => None
  | (k', v) :: rest => if String.eqb k k' then Some v else assoc k rest
  end.

(** Property read [j.k] on a value that is not null: [None] is
    JavaScript's [undefined] (a missing key, or a primitive or an array,
    which have no such property). *)
Definition getField (k : string) (j : Json) : option Json :=
  match j with
  | JObj fs => assoc k fs
  | _ => None
  end.

(* ===================================================================== *)
(** ** Objects held by reference *)
(* ===================================================================== *)

Definition loc := positive.

(** [TableColumn]: the fields the module reads or writes, and the rest. *)
Record TableColumn : Type := mkColumn {
  name : string;
  col_description : string;
  col_rest : Json
}.

(** [TableMetadata]: [columns] is the array of its column objects. *)
Record TableMetadata : Type := mkTable {
  key : string;
  description : string;
  columns : list loc;
  table_rest : Json
}.

Record Heap : Type := mkHeap {
  tables : gmap loc TableMetadata;
  cols : gmap loc TableColumn
}.

(** [tableData.description = d] *)
Definition setTableDescription (d : string) (t : TableMetadata) : TableMetadata :=
  {| key := key t; description := d; columns := columns t;
     table_rest := table_rest t |}.

(** [column.description = d] *)
Definition setColumnDescription (d : string) (c : TableColumn) : TableColumn :=
  {| name := name c; col_description := d; col_rest := col_rest c |}.

Definition writeTable (l : loc) (t : TableMetadata) (h : Heap) : Heap :=
  {| tables := <[l := t]> (tables h); cols := cols h |}.

Definition writeColumn (l : loc) (c : TableColumn) (h : Heap) : Heap :=
  {| tables := tables h; cols := <[l := c]> (cols h) |}.

(** [arr[i]] for a number [i]: [undefined] outside [0 .. length-1]. *)
Definition index {A : Type} (arr : list A) (i : Z) : option A :=
  if i <? 0 then None else arr !! Z.to_nat i.

(* ===================================================================== *)
(** ** Requests, responses and errors *)
(* ===================================================================== *)

Inductive Method : Type := GET | POST | PUT | DELETE.

(** [AxiosRequestConfig]: what [axios(config)], [axios.get(url)],
    [axios.put(url, data)] and [axios.post(url, data)] send. *)
Record AxiosRequestConfig : Type := mkConfig {
  method : Method;
  url : string;
  req_data : option Json
}.

Definition axios_get_config (u : string) : AxiosRequestConfig :=
  {| method := GET; url := u; req_data := None |}.
Definition axios_put_config (u : string) (d : Json) : AxiosRequestConfig :=
  {| method := PUT; url := u; req_data := Some d |}.
Definition axios_post_config (u : string) (d : Json) : AxiosRequestConfig :=
  {| method := POST; url := u; req_data := Some d |}.

Record AxiosResponse (T : Type) : Type := mkResponse {
  resp_data : T;
  status : Z
}.
Arguments mkResponse {T} _ _.
Arguments resp_data {T} _.
Arguments status {T} _.

(** [AxiosError]: [response] is optional; the body of an error response
    is whatever the server sent. *)
Record AxiosError : Type := mkError {
  message : string;
  response : option (AxiosResponse Json)
}.

(** The response shapes declared at the top of the module. *)
Record DescriptionAPI : Type := mkDescriptionAPI {
  api_description : string;
  description_msg : string
}.
Record LastIndexedAPI : Type := mkLastIndexedAPI {
  timestamp : string;
  lastIndexed_msg : string
}.
Record PreviewDataAPI : Type := mkPreviewDataAPI {
  previewData : Json;
  preview_msg : string
}.
(** [TableData = TableMetadata & { owners; tags }], as received. *)
Record TableData : Type := mkTableData {
  td_metadata : Json;
  td_owners : list Json;
  tags : list Json
}.
Record TableDataAPI : Type := mkTableDataAPI {
  tableData : TableData;
  tableData_msg : string
}.
Record RelatedDashboardDataAPI : Type := mkRelatedDashboardDataAPI {
  dashboards : list Json
}.
(** The body of the user endpoint, of which the module reads [user]. *)
Record UserAPI : Type := mkUserAPI {
  user : Json
}.

(** The type argument of a call: which body a successful reply has. *)
Inductive Api : Type :=
| ApiDescription
| ApiLastIndexed
| ApiPreview
| ApiTable
| ApiDashboards
| ApiUser
| ApiAny.

Definition Body (a : Api) : Type :=
  match a with
  | ApiDescription => DescriptionAPI
  | ApiLastIndexed => LastIndexedAPI
  | ApiPreview => PreviewDataAPI
  | ApiTable => TableDataAPI
  | ApiDashboards => RelatedDashboardDataAPI
  | ApiUser => UserAPI
  | ApiAny => Json
  end.

Definition Reply (a : Api) : Type := (AxiosResponse (Body a) + AxiosError)%type.

(** What a promise of this module can reject with, or a function throw. *)
Inductive Reason : Type :=
| Transport (e : AxiosError)
| TypeError
| PreviewFailure (failure_data : Json) (failure_status : option Z).

Inductive Settled (A : Type) : Type :=
| Fulfilled (a : A)
| Rejected (r : Reason).
Arguments Fulfilled {A} _.
Arguments Rejected {A} _.

(** A function either throws while it runs or returns its value. *)
Inductive Outcome (A : Type) : Type :=
| Returned (a : A)
| Threw (r : Reason).
Arguments Returned {A} _.
Arguments Threw {A} _.

(* ===================================================================== *)
(** ** Promise chains *)
(* ===================================================================== *)

(** - [Settle s]: nothing in flight, the promise has settled as [s];
    - [Await a c k]: call [c] is in flight, [k] runs on its reply;
    - [AwaitBoth a1 c1 a2 c2 k]: [c1] then [c2] were sent and both are in
      flight; [k] gets the two replies and whether the reply to [c1]
      arrived before the reply to [c2];
    - [ReadHeap], [WriteHeap]: a handler reads or writes the heap at the
      moment it runs. *)
Inductive Async (A : Type) : Type :=
| Settle (s : Settled A)
| Await (a : Api) (c : AxiosRequestConfig) (k : Reply a -> Async A)
| AwaitBoth (a1 : Api) (c1 : AxiosRequestConfig)
            (a2 : Api) (c2 : AxiosRequestConfig)
            (k : Reply a1 -> Reply a2 -> bool -> Async A)
| ReadHeap (k : Heap -> Async A)
| WriteHeap (h : Heap) (k : Async A).
Arguments Settle {A} _.
Arguments Await {A} _ _ _.
Arguments AwaitBoth {A} _ _ _ _ _.
Arguments ReadHeap {A} _.
Arguments WriteHeap {A} _ _.

Definition resolve {A : Type} (a : A) : Async A := Settle (Fulfilled a).
Definition Promise_reject {A : Type} (r : Reason) : Async A := Settle (Rejected r).

Definition settleReply {a : Api} (r : Reply a) : Settled (AxiosResponse (Body a)) :=
  match r with
  | inl resp => Fulfilled resp
  | inr e => Rejected (Transport e)
  end.

(** [axios(config)]: sends the call; the promise settles with the reply. *)
Definition axios (a : Api) (c : AxiosRequestConfig) : Async (AxiosResponse (Body a)) :=
  Await a c (fun r => Settle (settleReply r)).

(** [p.then(f)] *)
Fixpoint then_ {A B : Type} (p : Async A) (f : A -> Async B) : Async B :=
  match p with
  | Settle (Fulfilled a) => f a
  | Settle (Rejected r) => Settle (Rejected r)
  | Await a c k => Await a c (fun r => then_ (k r) f)
  | AwaitBoth a1 c1 a2 c2 k =>
      AwaitBoth a1 c1 a2 c2 (fun r1 r2 b => then_ (k r1 r2 b) f)
  | ReadHeap k => ReadHeap (fun h => then_ (k h) f)
  | WriteHeap h k => WriteHeap h (then_ k f)
  end.

(** [p.catch(g)] *)
Fixpoint catch_ {A : Type} (p : Async A) (g : Reason -> Async A) : Async A :=
  match p with
  | Settle (Fulfilled a) => Settle (Fulfilled a)
  | Settle (Rejected r) => g r
  | Await a c k => Await a c (fun r => catch_ (k r) g)
  | AwaitBoth a1 c1 a2 c2 k =>
      AwaitBoth a1 c1 a2 c2 (fun r1 r2 b => catch_ (k r1 r2 b) g)
  | ReadHeap k => ReadHeap (fun h => catch_ (k h) g)
  | WriteHeap h k => WriteHeap h (catch_ k g)
  end.

(** [Promise.all([p, q])] once [p] and [q] have settled: both values, or
    the reason of the one that rejected first. *)
Definition Promise_all2 {A B : Type} (p : Settled A) (q : Settled B)
    (p_first : bool) : Settled (A * B) :=
  match p, q with
  | Fulfilled a, Fulfilled b => Fulfilled (a, b)
  | Rejected r, Fulfilled _ => Rejected r
  | Fulfilled _, Rejected r => Rejected r
  | Rejected rp, Rejected rq => Rejected (if p_first then rp else rq)
  end.

(* ===================================================================== *)
(** ** The network and the run of a chain *)
(* ===================================================================== *)

(** The answer to every call, and for two calls in flight together
    which reply comes first. *)
Record Net : Type := mkNet {
  respond : forall a : Api, AxiosRequestConfig -> Reply a;
  arrives_first : AxiosRequestConfig -> AxiosRequestConfig -> bool
}.

Inductive Event : Type :=
| Fired (c : AxiosRequestConfig)
| Replied (c : AxiosRequestConfig) (failure : option AxiosError).

Definition failureOf {a : Api} (r : Reply a) : option AxiosError :=
  match r with
  | inl _ => None
  | inr e => Some e
  end.

Record Run (A : Type) : Type := mkRun {
  final_heap : Heap;
  log : list Event;
  result : Settled A
}.
Arguments mkRun {A} _ _ _.
Arguments final_heap {A} _.
Arguments log {A} _.
Arguments result {A} _.

Definition logged {A : Type} (es : list Event) (r : Run A) : Run A :=
  {| final_heap := final_heap r; log := es ++ log r; result := result r |}.

Fixpoint run {A : Type} (net : Net) (p : Async A) (h : Heap) : Run A :=
  match p with
  | Settle s => mkRun h [] s
  | Await a c k =>
      let r := respond net a c in
      logged [Fired c; Replied c (failureOf r)] (run net (k r) h)
  | AwaitBoth a1 c1 a2 c2 k =>
      let r1 := respond net a1 c1 in
      let r2 := respond net a2 c2 in
      let first := arrives_first net c1 c2 in
      let replies :=
        if first
        then [Replied c1 (failureOf r1); Replied c2 (failureOf r2)]
        else [Replied c2 (failureOf r2); Replied c1 (failureOf r1)] in
      logged ([Fired c1; Fired c2] ++ replies) (run net (k r1 r2 first) h)
  | ReadHeap k => run net (k h) h
  | WriteHeap h' k => run net k h'
  end.

(* ===================================================================== *)
(** ** The module *)
(* ===================================================================== *)

Definition API_PATH : string := "/api/metadata/v0".

(** [UpdateOwnerPayload] *)
Record UpdateOwnerPayload : Type := mkUpdateOwnerPayload {
  owner_method : Method;
  owner_id : string
}.

(** What [getTableData] resolves to. *)
Record TableDataResult : Type := mkTableDataResult {
  view_data : Json;
  owners : Json;
  view_tags : list Json;
  statusCode : Z
}.

(** What [getPreviewData] resolves to. *)
Record PreviewResult : Type := mkPreviewResult {
  preview_data : Json;
  preview_status : Z
}.

(** Reading the object behind a reference; a reference to nothing is
    [undefined], whose properties cannot be read. *)
Definition tableAt (h : Heap) (l : loc) : Outcome TableMetadata :=
  match tables h !! l with
  | Some t => Returned t
  | None => Threw TypeError
  end.

(** [tableData.columns[columnIndex]] as an object whose properties are
    about to be read or written. *)
Definition columnAt (h : Heap) (t : TableMetadata) (columnIndex : Z)
    : Outcome (loc * TableColumn) :=
  match index (columns t) columnIndex with
  | None => Threw TypeError
  | Some cl =>
      match cols h !! cl with
      | Some c => Returned (cl, c)
      | None => Threw TypeError
      end
  end.

Definition bindOutcome {A B : Type} (o : Outcome A) (f : A -> Outcome B) : Outcome B :=
  match o with
  | Returned a => f a
  | Threw r => Threw r
  end.

Notation "'try' x <- o ; k" := (bindOutcome o (fun x => k))
  (at level 10, x name, o at level 100, k at level 200).

(** A handler that throws rejects the promise of its [then]. *)
Definition handler {A : Type} (o : Outcome (Async A)) : Async A :=
  match o with
  | Returned p => p
  | Threw r => Promise_reject r
  end.

(** [arr.forEach(body)], the body working on the local state [s]. *)
Fixpoint forEach {A S : Type} (arr : list A) (body : A -> S -> Outcome S) (s : S)
    : Outcome S :=
  match arr with
  | [] => Returned s
  | x :: rest =>
      match body x s with
      | Returned s' => forEach rest body s'
      | Threw r => Threw r
      end
  end.

(* ===================================================================== *)
(** ** Reading a log *)
(* ===================================================================== *)

(** The calls sent, in the order they were sent. *)
Fixpoint fired (es : list Event) : list AxiosRequestConfig :=
  match es with
  | [] => []
  | Fired c :: rest => c :: fired rest
  | Replied _ _ :: rest => fired rest
  end.

Definition callsFired (es : list Event) : nat := length (fired es).

(** The error of the first call that failed. *)
Fixpoint firstFailure (es : list Event) : option AxiosError :=
  match es with
  | [] => None
  | Replied _ (Some e) :: _ => Some e
  | _ :: rest => firstFailure rest
  end.

(** A failed call rejects the promise with the error of that call. *)
Definition propagates {A : Type} (r : Run A) : Prop :=
  forall e, firstFailure (log r) = Some e -> result r = Rejected (Transport e).

(** The calls sent by an invocation: none when it throws before it
    returns its promise. *)
Definition callsOf {A : Type} (net : Net) (o : Outcome (Async A)) (h : Heap) : nat :=
  match o with
  | Returned p => callsFired (log (run net p h))
  | Threw _ => 0%nat
  end.

(** The calls sent by all the chains of a list. *)
Definition callsOfAll {A : Type} (net : Net) (ps : list (Async A)) (h : Heap) : nat :=
  fold_right (fun p n => (callsFired (log (run net p h)) + n)%nat) 0%nat ps.

Definition callsOfList {A : Type} (net : Net) (o : Outcome (list (Async A))) (h : Heap)
    : nat :=
  match o with
  | Returned ps => callsOfAll net ps h
  | Threw _ => 0%nat
  end.

(** The partial payload of a failed preview request, as the error
    handling is described: the [previewData] property of the body of the
    error's response, when there is a response whose body has that
    property and the property holds a payload (an object, or any other
    truthy value).  [getPreviewData_failure] compares the [catch] handler
    with it. *)
Definition partialPreviewData (e : AxiosError) : option Json :=
  match response e with
  | Some r =>
      match getField "previewData" (resp_data r) with
      | Some pd => if truthy pd then Some pd else None
      | None => None
      end
  | None => None
  end.

(* ===================================================================== *)
(** ** Sample inputs *)
(* ===================================================================== *)

(** An instance of the helper functions, a network that accepts every
    call, one that refuses every call, and a heap with one table of two
    columns; the functions are run on these in the examples. *)
Module Sample.

Definition getTableQueryParams (tableKey : string) (index source : option string)
    : string :=
  "key=" +:+ tableKey +:+ "&index=" +:+ default EmptyString index
         +:+ "&source=" +:+ default EmptyString source.

Definition getRelatedDashboardSlug (tableKey : string) : string := tableKey.

Definition getTableDataFromResponseData (t : TableDataAPI)
    (d : RelatedDashboardDataAPI) : Json :=
  JObj [("table", td_metadata (tableData t)); ("dashboards", JArr (dashboards d))].

Definition getTableOwnersFromResponseData (t : TableDataAPI) : Json :=
  JArr (td_owners (tableData t)).

Definition createOwnerUpdatePayload (item : UpdateOwnerPayload) (tableKey : string)
    : AxiosRequestConfig :=
  {| method := owner_method item;
     url := API_PATH +:+ "/update_table_owner";
     req_data := Some (JObj [("key", JStr tableKey); ("owner", JStr (owner_id item))]) |}.

Definition createOwnerNotificationData (item : UpdateOwnerPayload)
    (t : TableMetadata) : Json :=
  JObj [("recipients", JArr [JStr (owner_id item)]); ("resource", JStr (key t))].

Definition shouldSendNotification (u : Json) : bool :=
  match getField "is_active" u with
  | Some (JBool true) => true
  | _ => false
  end.

Definition body (a : Api) : Body a :=
  match a with
  | ApiDescription =>
      {| api_description := "fresh description"; description_msg := "Success" |}
  | ApiLastIndexed =>
      {| timestamp := "1571616598"; lastIndexed_msg := "Success" |}
  | ApiPreview =>
      {| previewData := JObj [("columns", JArr [])]; preview_msg := "Success" |}
  | ApiTable =>
      {| tableData :=
           {| td_metadata := JObj [("name", JStr "rides")];
              td_owners := [JStr "ada"];
              tags := [JStr "core"] |};
         tableData_msg := "Success" |}
  | ApiDashboards => {| dashboards := [JStr "weekly rides"] |}
  | ApiUser => {| user := JObj [("is_active", JBool true)] |}
  | ApiAny => JObj [("msg", JStr "Success")]
  end.

Definition acceptAll : Net :=
  {| respond := fun a _ => inl {| resp_data := body a; status := 200 |};
     arrives_first := fun _ _ => true |}.

Definition partialError : AxiosError :=
  {| message := "Request failed with status code 500";
     response :=
       Some {| resp_data := JObj [("previewData", JObj [("error_text", JStr "timeout")])];
               status := 500 |} |}.

Definition networkError : AxiosError :=
  {| message := "Network Error"; response := None |}.

Definition refuseAll (e : AxiosError) : Net :=
  {| respond := fun _ _ => inr e; arrives_first := fun _ _ => true |}.

Definition rides : TableMetadata :=
  {| key := "hive://gold.core/rides";
     description := "stale description";
     columns := [2%positive; 3%positive];
     table_rest := JObj [("schema", JStr "core")] |}.

Definition heap : Heap :=
  {| tables := {[ 1%positive := rides ]};
     cols := {[ 2%positive := {| name := "ride_id"; col_description := "id of the ride";
                                 col_rest := JNull |};
                3%positive := {| name := "fare"; col_description := "stale";
                                 col_rest := JNull |} ]} |}.

(** The same network, the reply to the second of two calls first. *)
Definition secondFirst (net : Net) : Net :=
  {| respond := respond net; arrives_first := fun _ _ => false |}.

(** The heap after the table has lost its second column. *)
Definition shrunk : Heap :=
  {| tables :=
       {[ 1%positive :=
            {| key := key rides; description := description rides;
               columns := [2%positive]; table_rest := table_rest rides |} ]};
     cols := cols heap |}.

Definition ada : UpdateOwnerPayload := {| owner_method := PUT; owner_id := "ada" |}.
Definition bob : UpdateOwnerPayload := {| owner_method := DELETE; owner_id := "bob" |}.

End Sample.

Section TableMetadataApi.

(** The functions imported from [./helpers].  They compute from their
    arguments only: no request, no write. *)
Variable getTableQueryParams : string -> option string -> option string -> string.
Variable getRelatedDashboardSlug : string -> string.
Variable getTableDataFromResponseData : TableDataAPI -> RelatedDashboardDataAPI -> Json.
Variable getTableOwnersFromResponseData : TableDataAPI -> Json.
Variable createOwnerUpdatePayload : UpdateOwnerPayload -> string -> AxiosRequestConfig.
Variable createOwnerNotificationData : UpdateOwnerPayload -> TableMetadata -> Json.
Variable shouldSendNotification : Json -> bool.

Definition relatedDashboardsCall (tableKey : string) : AxiosRequestConfig :=
  let relatedDashboardsSlug := getRelatedDashboardSlug tableKey in
  let relatedDashboardsURL :=
    API_PATH +:+ "/table/" +:+ relatedDashboardsSlug +:+ "/dashboards" in
  axios_get_config relatedDashboardsURL.

Definition tableCall (tableKey : string) (index source : option string)
    : AxiosRequestConfig :=
  let tableQueryParams := getTableQueryParams tableKey index source in
  let tableURL := API_PATH +:+ "/table?" +:+ tableQueryParams in
  axios_get_config tableURL.

(** The dashboards request is sent, then the table request, and
    [Promise.all([tableRequest, relatedDashboardsRequest])] joins them. *)
Definition getTableData (tableKey : string) (index source : option string)
    : Async TableDataResult :=
  AwaitBoth ApiDashboards (relatedDashboardsCall tableKey)
            ApiTable (tableCall tableKey index source)
    (fun relatedDashboardsReply tableReply dashboards_first =>
       then_ (Settle (Promise_all2 (settleReply tableReply)
                                   (settleReply relatedDashboardsReply)
                                   (negb dashboards_first)))
         (fun '(tableResponse, relatedDashboardsResponse) =>
            resolve
              {| view_data :=
                   getTableDataFromResponseData
                     (resp_data tableResponse)
                     (resp_data relatedDashboardsResponse);
                 owners := getTableOwnersFromResponseData (resp_data tableResponse);
                 view_tags := tags (tableData (resp_data tableResponse));
                 statusCode := status tableResponse |})).

Definition tableDescriptionCall (t : TableMetadata) : AxiosRequestConfig :=
  let tableParams := getTableQueryParams (key t) None None in
  axios_get_config (API_PATH +:+ "/get_table_description?" +:+ tableParams).

Definition getTableDescription (tableData : loc) (h : Heap) : Outcome (Async loc) :=
  try t <- tableAt h tableData;
  Returned
    (then_ (axios ApiDescription (tableDescriptionCall t))
       (fun response =>
          ReadHeap (fun h' =>
            handler (
              try t' <- tableAt h' tableData;
              Returned
                (WriteHeap
                   (writeTable tableData
                      (setTableDescription (api_description (resp_data response)) t') h')
                   (resolve tableData)))))).

Definition tableDescriptionPayload (description : string) (t : TableMetadata) : Json :=
  JObj [("description", JStr description);
        ("key", JStr (key t));
        ("source", JStr "user")].

Definition updateTableDescription (description : string) (tableData : loc) (h : Heap)
    : Outcome (Async (AxiosResponse Json)) :=
  try t <- tableAt h tableData;
  Returned
    (axios ApiAny
       (axios_put_config (API_PATH +:+ "/put_table_description")
          (tableDescriptionPayload description t))).

Definition getTableOwners (tableKey : string) : Async Json :=
  let tableParams := getTableQueryParams tableKey None None in
  then_ (axios ApiTable (axios_get_config (API_PATH +:+ "/table?" +:+ tableParams)))
    (fun response => resolve (getTableOwnersFromResponseData (resp_data response))).

Definition userCall (item : UpdateOwnerPayload) : AxiosRequestConfig :=
  axios_get_config ("/api/metadata/v0/user?user_id=" +:+ owner_id item).

Definition notificationCall (item : UpdateOwnerPayload) (t : TableMetadata)
    : AxiosRequestConfig :=
  axios_post_config "/api/mail/v0/notification" (createOwnerNotificationData item t).

(** The chain built for one element; it resolves to the reply of the
    notification post, or to [undefined] when none is sent. *)
Definition ownerUpdateRequest (item : UpdateOwnerPayload) (t : TableMetadata)
    : Async (option (AxiosResponse Json)) :=
  let updatePayload := createOwnerUpdatePayload item (key t) in
  then_
    (then_ (axios ApiAny updatePayload)
       (fun response => axios ApiUser (userCall item)))
    (fun response =>
       if shouldSendNotification (user (resp_data response))
       then then_ (axios ApiAny (notificationCall item t))
              (fun sent => resolve (Some sent))
       else resolve None).

Definition generateOwnerUpdateRequests (updateArray : list UpdateOwnerPayload)
    (tableData : loc) (h : Heap)
    : Outcome (list (Async (option (AxiosResponse Json)))) :=
  let updateRequests : list (Async (option (AxiosResponse Json))) := [] in
  forEach updateArray
    (fun item updateRequests =>
       try t <- tableAt h tableData;
       let request := ownerUpdateRequest item t in
       Returned (updateRequests ++ [request])%list)
    updateRequests.

Definition columnDescriptionCall (t : TableMetadata) (columnName : string)
    : AxiosRequestConfig :=
  let tableParams := getTableQueryParams (key t) None None in
  axios_get_config
    (API_PATH +:+ "/get_column_description?" +:+ tableParams
              +:+ "&column_name=" +:+ columnName).

Definition getColumnDescription (columnIndex : Z) (tableData : loc) (h : Heap)
    : Outcome (Async loc) :=
  try t <- tableAt h tableData;
  try column <- columnAt h t columnIndex;
  let columnName := name (snd column) in
  Returned
    (then_ (axios ApiDescription (columnDescriptionCall t columnName))
       (fun response =>
          ReadHeap (fun h' =>
            handler (
              try t' <- tableAt h' tableData;
              try column' <- columnAt h' t' columnIndex;
              Returned
                (WriteHeap
                   (writeColumn (fst column')
                      (setColumnDescription
                         (api_description (resp_data response)) (snd column')) h')
                   (resolve tableData)))))).

Definition columnDescriptionPayload (description columnName : string)
    (t : TableMetadata) : Json :=
  JObj [("description", JStr description);
        ("column_name", JStr columnName);
        ("key", JStr (key t));
        ("source", JStr "user")].

Definition updateColumnDescription (description : string) (columnIndex : Z)
    (tableData : loc) (h : Heap) : Outcome (Async (AxiosResponse Json)) :=
  try t <- tableAt h tableData;
  try column <- columnAt h t columnIndex;
  let columnName := name (snd column) in
  Returned
    (axios ApiAny
       (axios_put_config (API_PATH +:+ "/put_column_description")
          (columnDescriptionPayload description columnName t))).

Definition getLastIndexed : Async string :=
  then_ (axios ApiLastIndexed (axios_get_config (API_PATH +:+ "/get_last_indexed")))
    (fun response => resolve (timestamp (resp_data response))).

Definition previewCall (queryParams : Json) : AxiosRequestConfig :=
  {| url := "/api/preview/v0/"; method := POST; req_data := Some queryParams |}.

(** [e.response] of whatever the [catch] receives. *)
Definition responseOf (e : Reason) : option (AxiosResponse Json) :=
  match e with
  | Transport err => response err
  | _ => None
  end.

Definition previewCatch (e : Reason) : Async PreviewResult :=
  let response := responseOf e in
  let data := emptyObject in
  let data :=
    match response with
    | Some r =>
        if truthy (resp_data r)
        then match getField "previewData" (resp_data r) with
             | Some pd => if truthy pd then pd else data
             | None => data
             end
        else data
    | None => data
    end in
  let status :=
    match response with
    | Some r => Some (status r)
    | None => None
    end in
  Promise_reject (PreviewFailure data status).

Definition getPreviewData (queryParams : Json) : Async PreviewResult :=
  catch_
    (then_ (axios ApiPreview (previewCall queryParams))
       (fun response =>
          resolve {| preview_data := previewData (resp_data response);
                     preview_status := status response |}))
    previewCatch.

(* =================================================================== *)
(** ** Running [then] and [catch] *)
(* =================================================================== *)

Lemma run_then {A B : Type} (net : Net) (p : Async A) (f : A -> Async B) (h : Heap) :
  run net (then_ p f) h =
  match result (run net p h) with
  | Fulfilled a =>
      logged (log (run net p h)) (run net (f a) (final_heap (run net p h)))
  | Rejected r =>
      mkRun (final_heap (run net p h)) (log (run net p h)) (Rejected r)
  end.
Proof.
  revert h.
  induction p as [[a | r] | a c k IH | a1 c1 a2 c2 k IH | k IH | h' k IH];
    intros h; simpl.
  - destruct (run net (f a) h); reflexivity.
  - reflexivity.
  - rewrite IH. destruct (result (run net (k (respond net a c)) h)); reflexivity.
  - rewrite IH.
    destruct (result (run net (k _ _ _) h)); unfold logged; simpl;
      rewrite <- ?app_assoc; reflexivity.
  - apply IH.
  - apply IH.
Qed.

Lemma run_catch {A : Type} (net : Net) (p : Async A) (g : Reason -> Async A) (h : Heap) :
  run net (catch_ p g) h =
  match result (run net p h) with
  | Fulfilled a =>
      mkRun (final_heap (run net p h)) (log (run net p h)) (Fulfilled a)
  | Rejected r =>
      logged (log (run net p h)) (run net (g r) (final_heap (run net p h)))
  end.
Proof.
  revert h.
  induction p as [[a | r] | a c k IH | a1 c1 a2 c2 k IH | k IH | h' k IH];
    intros h; simpl.
  - reflexivity.
  - destruct (run net (g r) h); reflexivity.
  - rewrite IH. destruct (result (run net (k (respond net a c)) h)); reflexivity.
  - rewrite IH.
    destruct (result (run net (k _ _ _) h)); unfold logged; simpl;
      rewrite <- ?app_assoc; reflexivity.
  - apply IH.
  - apply IH.
Qed.

Lemma run_axios (net : Net) (a : Api) (c : AxiosRequestConfig) (h : Heap) :
  run net (axios a c) h =
  mkRun h [Fired c; Replied c (failureOf (respond net a c))]
        (settleReply (respond net a c)).
Proof. reflexivity. Qed.

(* =================================================================== *)
(** ** getPreviewData *)
(* =================================================================== *)

(** C1. When the preview request fails with error [e], [getPreviewData]
    rejects with an object whose [data] is the [previewData] payload of
    the error's response when there is one and the empty object
    otherwise, and whose [status] is the status of the error's response
    when the error has a response and null otherwise.  One call was
    sent and the heap is as before. *)
Theorem getPreviewData_failure (net : Net) (queryParams : Json) (h : Heap)
    (e : AxiosError) :
  respond net ApiPreview (previewCall queryParams) = inr e ->
  run net (getPreviewData queryParams) h =
  {| final_heap := h;
     log := [Fired (previewCall queryParams);
             Replied (previewCall queryParams) (Some e)];
     result :=
       Rejected
         (PreviewFailure
            (match partialPreviewData e with
             | Some payload => payload
             | None => JObj []
             end)
            (match response e with
             | Some r => Some (status r)
             | None => None
             end)) |}.
Proof.
  intros He. unfold getPreviewData.
  rewrite run_catch, run_then, run_axios. simpl. rewrite He. simpl.
  unfold previewCatch, partialPreviewData, emptyObject. simpl.
  destruct (response e) as [r |]; [| reflexivity].
  destruct (resp_data r) as [| b | n | s | items | fields]; simpl;
    try reflexivity;
    try (destruct b; reflexivity);
    try (destruct (negb _); reflexivity).
  destruct (assoc "previewData" fields) as [pd |]; [| reflexivity].
  destruct (truthy pd); reflexivity.
Qed.

(* =================================================================== *)
(** ** generateOwnerUpdateRequests *)
(* =================================================================== *)

Lemma forEach_push (updateArray : list UpdateOwnerPayload) (tableData : loc)
    (h : Heap) (tm : TableMetadata)
    (pushed : list (Async (option (AxiosResponse Json)))) :
  tables h !! tableData = Some tm ->
  forEach updateArray
    (fun item updateRequests =>
       try t <- tableAt h tableData;
       Returned (updateRequests ++ [ownerUpdateRequest item t])%list)
    pushed
  = Returned (pushed ++ map (fun item => ownerUpdateRequest item tm) updateArray)%list.
Proof.
  intros Ht. revert pushed.
  induction updateArray as [| item rest IH]; intros pushed; simpl.
  - now rewrite app_nil_r.
  - unfold tableAt at 1. rewrite Ht. simpl.
    rewrite IH, <- app_assoc. reflexivity.
Qed.

Lemma generateOwnerUpdateRequests_map (updateArray : list UpdateOwnerPayload)
    (tableData : loc) (h : Heap) (tm : TableMetadata) :
  tables h !! tableData = Some tm ->
  generateOwnerUpdateRequests updateArray tableData h =
  Returned (map (fun item => ownerUpdateRequest item tm) updateArray).
Proof.
  intros Ht. unfold generateOwnerUpdateRequests.
  now rewrite (forEach_push updateArray tableData h tm [] Ht).
Qed.

(** The log of the chain of one element, by the replies it meets. *)
Lemma ownerUpdateRequest_log (net : Net) (item : UpdateOwnerPayload)
    (tm : TableMetadata) (h : Heap) :
  let update := createOwnerUpdatePayload item (key tm) in
  let fetch := userCall item in
  let notify := notificationCall item tm in
  log (run net (ownerUpdateRequest item tm) h) =
  match respond net ApiAny update with
  | inr e => [Fired update; Replied update (Some e)]
  | inl _ =>
      match respond net ApiUser fetch with
      | inr e =>
          [Fired update; Replied update None; Fired fetch; Replied fetch (Some e)]
      | inl fetched =>
          if shouldSendNotification (user (resp_data fetched))
          then [Fired update; Replied update None;
                Fired fetch; Replied fetch None;
                Fired notify;
                Replied notify (failureOf (respond net ApiAny notify))]
          else [Fired update; Replied update None;
                Fired fetch; Replied fetch None]
      end
  end.
Proof.
  intros update fetch notify. unfold ownerUpdateRequest.
  fold update. simpl.
  destruct (respond net ApiAny update) as [updated | e]; simpl; [| reflexivity].
  fold fetch.
  destruct (respond net ApiUser fetch) as [fetched | e]; simpl; [| reflexivity].
  match goal with
  | |- context [shouldSendNotification ?u] =>
      change u with (user (resp_data fetched));
      destruct (shouldSendNotification (user (resp_data fetched)))
  end; simpl; [| reflexivity].
  fold notify.
  destruct (respond net ApiAny notify); reflexivity.
Qed.

(** C2. For every element of [updateArray] the list returned by
    [generateOwnerUpdateRequests] holds, at the element's position, a
    chain whose calls are: the owner update first; the user fetch for
    the element's id next, and only when the update succeeded; the
    notification post last, and only when the fetch succeeded and
    [shouldSendNotification] holds of the fetched user.  The log of
    the chain has one of these four shapes and no other. *)
Theorem generateOwnerUpdateRequests_chain (net : Net)
    (updateArray : list UpdateOwnerPayload) (tableData : loc) (h : Heap)
    (tm : TableMetadata) (i : nat) (item : UpdateOwnerPayload) :
  tables h !! tableData = Some tm ->
  updateArray !! i = Some item ->
  exists requests request,
    generateOwnerUpdateRequests updateArray tableData h = Returned requests /\
    requests !! i = Some request /\
    forall h' : Heap,
      let update := createOwnerUpdatePayload item (key tm) in
      let fetch :=
        {| method := GET;
           url := "/api/metadata/v0/user?user_id=" +:+ owner_id item;
           req_data := None |} in
      let notify :=
        {| method := POST;
           url := "/api/mail/v0/notification";
           req_data := Some (createOwnerNotificationData item tm) |} in
      log (run net request h') =
      match respond net ApiAny update with
      | inr e => [Fired update; Replied update (Some e)]
      | inl _ =>
          match respond net ApiUser fetch with
          | inr e =>
              [Fired update; Replied update None;
               Fired fetch; Replied fetch (Some e)]
          | inl fetched =>
              if shouldSendNotification (user (resp_data fetched))
              then [Fired update; Replied update None;
                    Fired fetch; Replied fetch None;
                    Fired notify;
                    Replied notify (failureOf (respond net ApiAny notify))]
              else [Fired update; Replied update None;
                    Fired fetch; Replied fetch None]
          end
      end.
Proof.
  intros Ht Hi.
  exists (map (fun item => ownerUpdateRequest item tm) updateArray),
         (ownerUpdateRequest item tm).
  split; [now apply generateOwnerUpdateRequests_map |].
  split; [now rewrite list_lookup_fmap, Hi |].
  intros h'. apply ownerUpdateRequest_log.
Qed.

(** C10. [generateOwnerUpdateRequests] returns one chain per element of
    [updateArray], in the order of [updateArray]; for the empty array
    it returns the empty list, and no call is sent. *)
Theorem generateOwnerUpdateRequests_one_per_element
    (updateArray : list UpdateOwnerPayload) (tableData : loc) (h : Heap)
    (tm : TableMetadata) :
  tables h !! tableData = Some tm ->
  exists requests,
    generateOwnerUpdateRequests updateArray tableData h = Returned requests /\
    length requests = length updateArray /\
    (forall (i : nat) (item : UpdateOwnerPayload),
       updateArray !! i = Some item ->
       requests !! i = Some (ownerUpdateRequest item tm)) /\
    (updateArray = [] ->
       requests = [] /\ forall net : Net, callsOfAll net requests h = 0%nat).
Proof.
  intros Ht.
  exists (map (fun item => ownerUpdateRequest item tm) updateArray).
  split; [now apply generateOwnerUpdateRequests_map |].
  split; [apply length_map |].
  split.
  - intros i item Hi. now rewrite list_lookup_fmap, Hi.
  - intros ->. split; [reflexivity | intros net; reflexivity].
Qed.

(* =================================================================== *)
(** ** getTableData *)
(* =================================================================== *)

(** C3. [getTableData] sends the related-dashboards request and the
    table request before it has a reply to either, and joins them: when
    both succeed it resolves to the view-model whose data is built by
    [getTableDataFromResponseData] from the two bodies, whose owners and
    tags come from the table body and whose [statusCode] is the status
    of the table response; when one fails it rejects. *)
Theorem getTableData_view_model (net : Net) (tableKey : string)
    (index source : option string) (h : Heap) :
  let dashboardsRequest :=
    {| method := GET;
       url := "/api/metadata/v0" +:+ "/table/" +:+ getRelatedDashboardSlug tableKey
                                 +:+ "/dashboards";
       req_data := None |} in
  let tableRequest :=
    {| method := GET;
       url := "/api/metadata/v0" +:+ "/table?"
                                 +:+ getTableQueryParams tableKey index source;
       req_data := None |} in
  let tableReply := respond net ApiTable tableRequest in
  let dashboardsReply := respond net ApiDashboards dashboardsRequest in
  let r := run net (getTableData tableKey index source) h in
  log r =
    Fired dashboardsRequest :: Fired tableRequest ::
    (if arrives_first net dashboardsRequest tableRequest
     then [Replied dashboardsRequest (failureOf dashboardsReply);
           Replied tableRequest (failureOf tableReply)]
     else [Replied tableRequest (failureOf tableReply);
           Replied dashboardsRequest (failureOf dashboardsReply)]) /\
  match tableReply, dashboardsReply with
  | inl tableResponse, inl relatedDashboardsResponse =>
      result r =
      Fulfilled
        {| view_data :=
             getTableDataFromResponseData (resp_data tableResponse)
                                          (resp_data relatedDashboardsResponse);
           owners := getTableOwnersFromResponseData (resp_data tableResponse);
           view_tags := tags (tableData (resp_data tableResponse));
           statusCode := status tableResponse |}
  | _, _ => exists reason, result r = Rejected reason
  end.
Proof.
  intros dashboardsRequest tableRequest tableReply dashboardsReply r.
  subst r. unfold getTableData.
  change (relatedDashboardsCall tableKey) with dashboardsRequest.
  change (tableCall tableKey index source) with tableRequest.
  simpl. fold tableReply dashboardsReply.
  destruct tableReply as [tableResponse | et],
           dashboardsReply as [dashboardsResponse | ed];
    simpl; (split; [now rewrite app_nil_r |]); eauto.
Qed.

(* =================================================================== *)
(** ** Failures *)
(* =================================================================== *)

Lemma propagates_axios_then {A : Type} (net : Net) (a : Api)
    (c : AxiosRequestConfig) (f : AxiosResponse (Body a) -> Async A) (h : Heap) :
  (forall resp, propagates (run net (f resp) h)) ->
  propagates (run net (then_ (axios a c) f) h).
Proof.
  intros Hf e. simpl.
  destruct (respond net a c) as [resp | e']; simpl.
  - apply Hf.
  - congruence.
Qed.

Lemma propagates_axios (net : Net) (a : Api) (c : AxiosRequestConfig) (h : Heap) :
  propagates (run net (axios a c) h).
Proof.
  intros e. simpl. destruct (respond net a c); simpl; congruence.
Qed.

Lemma propagates_settled {A : Type} (net : Net) (s : Settled A) (h : Heap) :
  propagates (run net (Settle s) h).
Proof. intros e. simpl. discriminate. Qed.

Lemma propagates_ownerUpdateRequest (net : Net) (item : UpdateOwnerPayload)
    (tm : TableMetadata) (h : Heap) :
  propagates (run net (ownerUpdateRequest item tm) h).
Proof.
  unfold ownerUpdateRequest. intros e. simpl.
  destruct (respond net ApiAny _) as [updated | e1]; simpl; [| congruence].
  destruct (respond net ApiUser _) as [fetched | e2]; simpl; [| congruence].
  destruct (shouldSendNotification _); simpl; [| discriminate].
  destruct (respond net ApiAny _) as [sent | e3]; simpl; congruence.
Qed.

(** C6. In every exported function but [getPreviewData] a failed call
    rejects the result with the error of that call, as it came: the
    promise of [getTableData], [getTableDescription],
    [updateTableDescription], [getTableOwners], [getColumnDescription],
    [updateColumnDescription] and [getLastIndexed], and each chain of
    [generateOwnerUpdateRequests]. *)
Theorem transport_error_propagates (net : Net) (h h' : Heap) :
  (forall tableKey index source,
     propagates (run net (getTableData tableKey index source) h')) /\
  (forall tableData p,
     getTableDescription tableData h = Returned p -> propagates (run net p h')) /\
  (forall description tableData p,
     updateTableDescription description tableData h = Returned p ->
     propagates (run net p h')) /\
  (forall tableKey, propagates (run net (getTableOwners tableKey) h')) /\
  (forall updateArray tableData requests,
     generateOwnerUpdateRequests updateArray tableData h = Returned requests ->
     Forall (fun p => propagates (run net p h')) requests) /\
  (forall columnIndex tableData p,
     getColumnDescription columnIndex tableData h = Returned p ->
     propagates (run net p h')) /\
  (forall description columnIndex tableData p,
     updateColumnDescription description columnIndex tableData h = Returned p ->
     propagates (run net p h')) /\
  propagates (run net getLastIndexed h').
Proof.
  repeat split.
  - intros tableKey index source e. unfold getTableData. simpl.
    destruct (respond net ApiDashboards _) as [dr | ed],
             (respond net ApiTable _) as [tr | et],
             (arrives_first net _ _); simpl; congruence.
  - intros tableData p. unfold getTableDescription, tableAt.
    destruct (tables h !! tableData) as [t |]; simpl; [| discriminate].
    intros [= <-]. apply propagates_axios_then. intros resp e. simpl.
    destruct (tables h' !! tableData); simpl; discriminate.
  - intros description tableData p. unfold updateTableDescription, tableAt.
    destruct (tables h !! tableData) as [t |]; simpl; [| discriminate].
    intros [= <-]. apply propagates_axios.
  - intros tableKey. apply propagates_axios_then. intros resp.
    apply propagates_settled.
  - intros updateArray tableData requests.
    destruct (tables h !! tableData) as [tm |] eqn:Ht.
    + rewrite (generateOwnerUpdateRequests_map _ _ _ _ Ht). intros [= <-].
      apply Forall_forall. intros p Hp. apply list_elem_of_In in Hp.
      apply in_map_iff in Hp. destruct Hp as [it [<- _]].
      apply propagates_ownerUpdateRequest.
    + destruct updateArray as [| item rest].
      * intros [= <-]. constructor.
      * unfold generateOwnerUpdateRequests. simpl. unfold tableAt.
        rewrite Ht. simpl. discriminate.
  - intros columnIndex tableData p. unfold getColumnDescription, tableAt.
    destruct (tables h !! tableData) as [t |]; simpl; [| discriminate].
    destruct (columnAt h t columnIndex) as [column | r]; simpl; [| discriminate].
    intros [= <-]. apply propagates_axios_then. intros resp e. simpl.
    destruct (tables h' !! tableData) as [t' |]; simpl; [| discriminate].
    destruct (columnAt h' t' columnIndex); simpl; discriminate.
  - intros description columnIndex tableData p.
    unfold updateColumnDescription, tableAt.
    destruct (tables h !! tableData) as [t |]; simpl; [| discriminate].
    destruct (columnAt h t columnIndex) as [column | r]; simpl; [| discriminate].
    intros [= <-]. apply propagates_axios.
  - apply propagates_axios_then. intros resp. apply propagates_settled.
Qed.

Lemma firstFailure_complete (es : list Event) (c : AxiosRequestConfig)
    (e : AxiosError) :
  In (Replied c (Some e)) es -> exists e', firstFailure es = Some e'.
Proof.
  induction es as [| ev rest IH]; intros Hin; [destruct Hin |].
  destruct Hin as [-> | Hin]; simpl; [eauto |].
  destruct ev as [c' | c' [e' |]]; eauto.
Qed.

(* =================================================================== *)
(** ** Payloads of the two updates *)
(* =================================================================== *)

(** C7. [updateTableDescription] sends one call, a PUT to
    [put_table_description] whose payload is
    [{description, key: tableData.key, source: 'user'}];
    [updateColumnDescription], for [columnIndex] in bounds, sends one
    call, a PUT to [put_column_description] whose payload is
    [{description, column_name: tableData.columns[columnIndex].name,
      key: tableData.key, source: 'user'}]. *)
Theorem update_description_payloads (net : Net) (h : Heap) (tableData : loc)
    (tm : TableMetadata) (description : string) :
  tables h !! tableData = Some tm ->
  (exists p,
     updateTableDescription description tableData h = Returned p /\
     forall h', fired (log (run net p h')) =
       [ {| method := PUT;
            url := "/api/metadata/v0/put_table_description";
            req_data :=
              Some (JObj [("description", JStr description);
                          ("key", JStr (key tm));
                          ("source", JStr "user")]) |} ]) /\
  (forall (columnIndex : Z) (cl : loc) (column : TableColumn),
     0 <= columnIndex < Z.of_nat (length (columns tm)) ->
     columns tm !! Z.to_nat columnIndex = Some cl ->
     cols h !! cl = Some column ->
     exists p,
       updateColumnDescription description columnIndex tableData h = Returned p /\
       forall h', fired (log (run net p h')) =
         [ {| method := PUT;
              url := "/api/metadata/v0/put_column_description";
              req_data :=
                Some (JObj [("description", JStr description);
                            ("column_name", JStr (name column));
                            ("key", JStr (key tm));
                            ("source", JStr "user")]) |} ]).
Proof.
  intros Ht. split.
  - eexists. split.
    + unfold updateTableDescription, tableAt. rewrite Ht. reflexivity.
    + intros h'. reflexivity.
  - intros columnIndex cl column Hrange Hcl Hcol. eexists. split.
    + unfold updateColumnDescription, tableAt, columnAt, index. rewrite Ht. simpl.
      destruct (Z.ltb_spec columnIndex 0) as [Hneg | _]; [lia |].
      rewrite Hcl, Hcol. reflexivity.
    + intros h'. reflexivity.
Qed.

(* =================================================================== *)
(** ** Writes of the two getters *)
(* =================================================================== *)

Lemma columnAt_in_range (h : Heap) (tm : TableMetadata) (columnIndex : Z)
    (cl : loc) (column : TableColumn) :
  0 <= columnIndex ->
  columns tm !! Z.to_nat columnIndex = Some cl ->
  cols h !! cl = Some column ->
  columnAt h tm columnIndex = Returned (cl, column).
Proof.
  intros Hnn Hcl Hcol. unfold columnAt, index.
  destruct (Z.ltb_spec columnIndex 0) as [Hneg | _]; [lia |].
  now rewrite Hcl, Hcol.
Qed.

Lemma columnAt_out_of_range (h : Heap) (tm : TableMetadata) (columnIndex : Z) :
  columnIndex < 0 \/ Z.of_nat (length (columns tm)) <= columnIndex ->
  columnAt h tm columnIndex = Threw TypeError.
Proof.
  intros Hout. unfold columnAt, index.
  destruct (Z.ltb_spec columnIndex 0) as [Hneg | Hnn]; [reflexivity |].
  rewrite (proj2 (lookup_ge_None (columns tm) (Z.to_nat columnIndex)));
    [reflexivity | lia].
Qed.

(** C8. When the request succeeds with description [d]:
    [getTableDescription] resolves to the reference it was given, and
    the heap differs from the one before only in that the object behind
    that reference has [description = d]; [getColumnDescription]
    resolves to the reference it was given, and the heap differs only
    in that the column object at [columnIndex] has [description = d].
    Every other field, every other column object and every other table
    object is as before. *)
Theorem getters_write_description_only (net : Net) (h h' : Heap)
    (tableData : loc) (tm tm' : TableMetadata) :
  tables h !! tableData = Some tm ->
  tables h' !! tableData = Some tm' ->
  (exists p,
     getTableDescription tableData h = Returned p /\
     forall response,
       respond net ApiDescription (tableDescriptionCall tm) = inl response ->
       result (run net p h') = Fulfilled tableData /\
       final_heap (run net p h') =
         {| tables :=
              <[tableData :=
                  {| key := key tm';
                     description := api_description (resp_data response);
                     columns := columns tm';
                     table_rest := table_rest tm' |}]> (tables h');
            cols := cols h' |}) /\
  (forall (columnIndex : Z) (cl cl' : loc) (column column' : TableColumn),
     0 <= columnIndex ->
     columns tm !! Z.to_nat columnIndex = Some cl ->
     cols h !! cl = Some column ->
     columns tm' !! Z.to_nat columnIndex = Some cl' ->
     cols h' !! cl' = Some column' ->
     exists p,
       getColumnDescription columnIndex tableData h = Returned p /\
       forall response,
         respond net ApiDescription (columnDescriptionCall tm (name column))
           = inl response ->
         result (run net p h') = Fulfilled tableData /\
         final_heap (run net p h') =
           {| tables := tables h';
              cols :=
                <[cl' :=
                    {| name := name column';
                       col_description := api_description (resp_data response);
                       col_rest := col_rest column' |}]> (cols h') |}).
Proof.
  intros Ht Ht'. split.
  - eexists. split.
    + unfold getTableDescription, tableAt. rewrite Ht. reflexivity.
    + intros response Hok. simpl. rewrite Hok. simpl.
      unfold tableAt. rewrite Ht'. simpl. split; reflexivity.
  - intros columnIndex cl cl' column column' Hnn Hcl Hcol Hcl' Hcol'.
    eexists. split.
    + unfold getColumnDescription, tableAt. rewrite Ht. simpl.
      rewrite (columnAt_in_range h tm columnIndex cl column Hnn Hcl Hcol).
      reflexivity.
    + intros response Hok. simpl. rewrite Hok. simpl.
      unfold tableAt. rewrite Ht'. simpl.
      rewrite (columnAt_in_range h' tm' columnIndex cl' column' Hnn Hcl' Hcol').
      simpl. split; reflexivity.
Qed.

(* =================================================================== *)
(** ** The column index *)
(* =================================================================== *)

(** C9. [getColumnDescription] and [updateColumnDescription] read
    [tableData.columns[columnIndex].name] unchecked: for
    [0 <= columnIndex < tableData.columns.length] the read succeeds and
    the function returns its promise; for any other [columnIndex] the
    read throws a [TypeError] and no call has been sent. *)
Theorem column_index_unchecked (net : Net) (h : Heap) (tableData : loc)
    (tm : TableMetadata) (columnIndex : Z) (description : string) :
  tables h !! tableData = Some tm ->
  (0 <= columnIndex < Z.of_nat (length (columns tm)) ->
   (forall cl, In cl (columns tm) -> is_Some (cols h !! cl)) ->
   exists cl column,
     columns tm !! Z.to_nat columnIndex = Some cl /\
     cols h !! cl = Some column /\
     columnAt h tm columnIndex = Returned (cl, column) /\
     (exists p, getColumnDescription columnIndex tableData h = Returned p) /\
     (exists p,
        updateColumnDescription description columnIndex tableData h = Returned p)) /\
  (columnIndex < 0 \/ Z.of_nat (length (columns tm)) <= columnIndex ->
   columnAt h tm columnIndex = Threw TypeError /\
   getColumnDescription columnIndex tableData h = Threw TypeError /\
   updateColumnDescription description columnIndex tableData h = Threw TypeError /\
   callsOf net (getColumnDescription columnIndex tableData h) h = 0%nat /\
   callsOf net (updateColumnDescription description columnIndex tableData h) h
     = 0%nat).
Proof.
  intros Ht. split.
  - intros [Hnn Hlt] Hcols.
    destruct (lookup_lt_is_Some_2 (columns tm) (Z.to_nat columnIndex)) as [cl Hcl];
      [lia |].
    destruct (Hcols cl) as [column Hcol].
    { apply list_elem_of_In. eapply list_elem_of_lookup_2. exact Hcl. }
    exists cl, column.
    pose proof (columnAt_in_range h tm columnIndex cl column Hnn Hcl Hcol) as Hat.
    repeat split; try assumption.
    + eexists. unfold getColumnDescription, tableAt. rewrite Ht. simpl.
      rewrite Hat. reflexivity.
    + eexists. unfold updateColumnDescription, tableAt. rewrite Ht. simpl.
      rewrite Hat. reflexivity.
  - intros Hout.
    pose proof (columnAt_out_of_range h tm columnIndex Hout) as Hat.
    assert (Hget : getColumnDescription columnIndex tableData h = Threw TypeError).
    { unfold getColumnDescription, tableAt. rewrite Ht. simpl. now rewrite Hat. }
    assert (Hput : updateColumnDescription description columnIndex tableData h
                   = Threw TypeError).
    { unfold updateColumnDescription, tableAt. rewrite Ht. simpl. now rewrite Hat. }
    rewrite Hget, Hput. repeat split; assumption || reflexivity.
Qed.

(* =================================================================== *)
(** ** Number of calls *)
(* =================================================================== *)

Lemma ownerUpdateRequest_calls (net : Net) (item : UpdateOwnerPayload)
    (tm : TableMetadata) (h : Heap) :
  (callsFired (log (run net (ownerUpdateRequest item tm) h)) <= 3)%nat.
Proof.
  unfold callsFired. rewrite ownerUpdateRequest_log.
  destruct (respond net ApiAny _) as [updated | e1]; simpl; [| lia].
  destruct (respond net ApiUser _) as [fetched | e2]; simpl; [| lia].
  destruct (shouldSendNotification _); simpl; lia.
Qed.

Lemma callsOfAll_chains (net : Net) (updateArray : list UpdateOwnerPayload)
    (tm : TableMetadata) (h : Heap) :
  (callsOfAll net (map (fun item => ownerUpdateRequest item tm) updateArray) h
   <= 3 * length updateArray)%nat.
Proof.
  unfold callsOfAll.
  induction updateArray as [| item rest IH];
    cbn [map fold_right Datatypes.length]; [lia |].
  pose proof (ownerUpdateRequest_calls net item tm h). lia.
Qed.

(** C4, as the code has it.  An invocation of [getTableData],
    [getTableDescription], [updateTableDescription], [getTableOwners],
    [getColumnDescription], [updateColumnDescription], [getLastIndexed]
    or [getPreviewData] sends at most two calls;
    [generateOwnerUpdateRequests] sends at most three calls, one after
    the other, for each element of [updateArray]. *)
Theorem calls_per_invocation (net : Net) (h h' : Heap) :
  (forall tableKey index source,
     (callsFired (log (run net (getTableData tableKey index source) h')) <= 2)%nat) /\
  (forall tableData,
     (callsOf net (getTableDescription tableData h) h' <= 2)%nat) /\
  (forall description tableData,
     (callsOf net (updateTableDescription description tableData h) h' <= 2)%nat) /\
  (forall tableKey,
     (callsFired (log (run net (getTableOwners tableKey) h')) <= 2)%nat) /\
  (forall columnIndex tableData,
     (callsOf net (getColumnDescription columnIndex tableData h) h' <= 2)%nat) /\
  (forall description columnIndex tableData,
     (callsOf net (updateColumnDescription description columnIndex tableData h) h'
      <= 2)%nat) /\
  (callsFired (log (run net getLastIndexed h')) <= 2)%nat /\
  (forall queryParams,
     (callsFired (log (run net (getPreviewData queryParams) h')) <= 2)%nat) /\
  (forall updateArray tableData,
     (callsOfList net (generateOwnerUpdateRequests updateArray tableData h) h'
      <= 3 * length updateArray)%nat).
Proof.
  repeat split.
  - intros tableKey index source. unfold getTableData, callsFired. simpl.
    destruct (arrives_first net _ _),
             (respond net ApiDashboards _), (respond net ApiTable _);
      simpl; lia.
  - intros tableData. unfold getTableDescription, tableAt, callsOf, callsFired.
    destruct (tables h !! tableData) as [t |]; simpl; [| lia].
    destruct (respond net ApiDescription _); simpl; [| lia].
    destruct (tables h' !! tableData); simpl; lia.
  - intros description tableData.
    unfold updateTableDescription, tableAt, callsOf, callsFired.
    destruct (tables h !! tableData) as [t |]; simpl; lia.
  - intros tableKey. unfold getTableOwners, callsFired. simpl.
    destruct (respond net ApiTable _); simpl; lia.
  - intros columnIndex tableData.
    unfold getColumnDescription, tableAt, callsOf, callsFired.
    destruct (tables h !! tableData) as [t |]; simpl; [| lia].
    destruct (columnAt h t columnIndex) as [column | r]; simpl; [| lia].
    destruct (respond net ApiDescription _); simpl; [| lia].
    destruct (tables h' !! tableData) as [t' |]; simpl; [| lia].
    destruct (columnAt h' t' columnIndex); simpl; lia.
  - intros description columnIndex tableData.
    unfold updateColumnDescription, tableAt, callsOf, callsFired.
    destruct (tables h !! tableData) as [t |]; simpl; [| lia].
    destruct (columnAt h t columnIndex) as [column | r]; simpl; lia.
  - unfold getLastIndexed, callsFired. simpl.
    destruct (respond net ApiLastIndexed _); simpl; lia.
  - intros queryParams. unfold getPreviewData, callsFired. simpl.
    destruct (respond net ApiPreview _); simpl; lia.
  - intros updateArray tableData.
    destruct (tables h !! tableData) as [tm |] eqn:Ht.
    + rewrite (generateOwnerUpdateRequests_map _ _ _ _ Ht). simpl.
      apply callsOfAll_chains.
    + destruct updateArray as [| item rest]; [simpl; lia |].
      unfold generateOwnerUpdateRequests. simpl. unfold tableAt.
      rewrite Ht. simpl. lia.
Qed.

(* =================================================================== *)
(** ** What an invocation leaves untouched *)
(* =================================================================== *)

Lemma ownerUpdateRequest_heap (net : Net) (item : UpdateOwnerPayload)
    (tm : TableMetadata) (h : Heap) :
  final_heap (run net (ownerUpdateRequest item tm) h) = h.
Proof.
  unfold ownerUpdateRequest. simpl.
  destruct (respond net ApiAny _) as [updated | e1]; simpl; [| reflexivity].
  destruct (respond net ApiUser _) as [fetched | e2]; simpl; [| reflexivity].
  destruct (shouldSendNotification _); simpl; [| reflexivity].
  destruct (respond net ApiAny _); reflexivity.
Qed.

(** C5, as the code has it.  [getTableData], [updateTableDescription],
    [getTableOwners], [generateOwnerUpdateRequests],
    [updateColumnDescription], [getLastIndexed] and [getPreviewData]
    leave every object as it was; [getTableDescription] and
    [getColumnDescription] leave every object as it was when their
    promise rejects. *)
Theorem heap_untouched (net : Net) (h h' : Heap) :
  (forall tableKey index source,
     final_heap (run net (getTableData tableKey index source) h') = h') /\
  (forall description tableData p,
     updateTableDescription description tableData h = Returned p ->
     final_heap (run net p h') = h') /\
  (forall tableKey, final_heap (run net (getTableOwners tableKey) h') = h') /\
  (forall updateArray tableData requests,
     generateOwnerUpdateRequests updateArray tableData h = Returned requests ->
     Forall (fun p => final_heap (run net p h') = h') requests) /\
  (forall description columnIndex tableData p,
     updateColumnDescription description columnIndex tableData h = Returned p ->
     final_heap (run net p h') = h') /\
  final_heap (run net getLastIndexed h') = h' /\
  (forall queryParams, final_heap (run net (getPreviewData queryParams) h') = h') /\
  (forall tableData p reason,
     getTableDescription tableData h = Returned p ->
     result (run net p h') = Rejected reason ->
     final_heap (run net p h') = h') /\
  (forall columnIndex tableData p reason,
     getColumnDescription columnIndex tableData h = Returned p ->
     result (run net p h') = Rejected reason ->
     final_heap (run net p h') = h').
Proof.
  repeat split.
  - intros tableKey index source. unfold getTableData. simpl.
    destruct (respond net ApiDashboards _), (respond net ApiTable _);
      simpl; reflexivity.
  - intros description tableData p. unfold updateTableDescription, tableAt.
    destruct (tables h !! tableData) as [t |]; simpl; [| discriminate].
    intros [= <-]. reflexivity.
  - intros tableKey. unfold getTableOwners. simpl.
    destruct (respond net ApiTable _); reflexivity.
  - intros updateArray tableData requests.
    destruct (tables h !! tableData) as [tm |] eqn:Ht.
    + rewrite (generateOwnerUpdateRequests_map _ _ _ _ Ht). intros [= <-].
      apply Forall_forall. intros p Hp. apply list_elem_of_In in Hp.
      apply in_map_iff in Hp. destruct Hp as [it [<- _]].
      apply ownerUpdateRequest_heap.
    + destruct updateArray as [| item rest].
      * intros [= <-]. constructor.
      * unfold generateOwnerUpdateRequests. simpl. unfold tableAt.
        rewrite Ht. simpl. discriminate.
  - intros description columnIndex tableData p.
    unfold updateColumnDescription, tableAt.
    destruct (tables h !! tableData) as [t |]; simpl; [| discriminate].
    destruct (columnAt h t columnIndex) as [column | r]; simpl; [| discriminate].
    intros [= <-]. reflexivity.
  - unfold getLastIndexed. simpl.
    destruct (respond net ApiLastIndexed _); reflexivity.
  - intros queryParams. unfold getPreviewData. simpl.
    destruct (respond net ApiPreview _); reflexivity.
  - intros tableData p reason. unfold getTableDescription, tableAt.
    destruct (tables h !! tableData) as [t |]; simpl; [| discriminate].
    intros [= <-]. simpl.
    destruct (respond net ApiDescription _); simpl; [| reflexivity].
    destruct (tables h' !! tableData); simpl; [discriminate | reflexivity].
  - intros columnIndex tableData p reason. unfold getColumnDescription, tableAt.
    destruct (tables h !! tableData) as [t |]; simpl; [| discriminate].
    destruct (columnAt h t columnIndex) as [column | r]; simpl; [| discriminate].
    intros [= <-]. simpl.
    destruct (respond net ApiDescription _); simpl; [| reflexivity].
    destruct (tables h' !! tableData) as [t' |]; simpl; [| reflexivity].
    destruct (columnAt h' t' columnIndex); simpl; [discriminate | reflexivity].
Qed.

(* ===================================================================== *)
(** ** Further properties: the preview request *)
(* ===================================================================== *)



(* ===================================================================== *)
(** ** Further properties: the read-only getters *)
(* ===================================================================== *)

(** [getLastIndexed] sends one GET to [get_last_indexed] and settles
    as that request does: with the [timestamp] of the body when it
    succeeds, with the request's error when it fails. *)
Theorem getLastIndexed_run (net : Net) (h : Heap) :
  let call :=
    {| method := GET; url := "/api/metadata/v0/get_last_indexed";
       req_data := None |} in
  run net getLastIndexed h =
  {| final_heap := h;
     log := [Fired call; Replied call (failureOf (respond net ApiLastIndexed call))];
     result :=
       match respond net ApiLastIndexed call with
       | inl response => Fulfilled (timestamp (resp_data response))
       | inr e => Rejected (Transport e)
       end |}.
Proof.
  intros call. unfold getLastIndexed. rewrite run_then, run_axios.
  change (axios_get_config (API_PATH +:+ "/get_last_indexed")) with call.
  simpl. destruct (respond net ApiLastIndexed call); reflexivity.
Qed.

(** X3. [getTableOwners(tableKey)] sends the very request that
    [getTableData(tableKey)] sends for the table, and whenever
    [getTableData(tableKey)] resolves, [getTableOwners(tableKey)]
    resolves to the [owners] of that view-model. *)
Theorem getTableOwners_matches_getTableData (net : Net) (tableKey : string)
    (h : Heap) (view : TableDataResult) :
  let call :=
    {| method := GET;
       url := "/api/metadata/v0" +:+ "/table?"
                +:+ getTableQueryParams tableKey None None;
       req_data := None |} in
  result (run net (getTableData tableKey None None) h) = Fulfilled view ->
  fired (log (run net (getTableOwners tableKey) h)) = [call] /\
  In call (fired (log (run net (getTableData tableKey None None) h))) /\
  result (run net (getTableOwners tableKey) h) = Fulfilled (owners view).
Proof.
  intros call. unfold getTableData, getTableOwners.
  change (tableCall tableKey None None) with call.
  change (axios_get_config
            (API_PATH +:+ "/table?" +:+ getTableQueryParams tableKey None None))
    with call.
  simpl.
  destruct (respond net ApiDashboards _) as [dashboardsResponse | ed],
           (respond net ApiTable call) as [tableResponse | et];
    simpl; intros Hview; try discriminate Hview.
  injection Hview as <-. simpl.
  split; [reflexivity |]. split; [| reflexivity].
  destruct (arrives_first net _ _); simpl; auto.
Qed.

(** X4. The result of [getTableData] does not depend on which of its two
    replies arrives first, unless both requests fail; when both fail it
    rejects with the error of the reply that arrived first. *)
Theorem getTableData_arrival_order (net net' : Net) (tableKey : string)
    (index source : option string) (h : Heap) :
  (forall a c, respond net' a c = respond net a c) ->
  let tableReply := respond net ApiTable (tableCall tableKey index source) in
  let dashboardsReply :=
    respond net ApiDashboards (relatedDashboardsCall tableKey) in
  match tableReply, dashboardsReply with
  | inr tableError, inr dashboardsError =>
      result (run net (getTableData tableKey index source) h) =
      Rejected (Transport
                  (if arrives_first net (relatedDashboardsCall tableKey)
                                        (tableCall tableKey index source)
                   then dashboardsError else tableError))
  | _, _ =>
      result (run net' (getTableData tableKey index source) h) =
      result (run net (getTableData tableKey index source) h)
  end.
Proof.
  intros Hsame tableReply dashboardsReply. unfold getTableData. simpl.
  rewrite !Hsame. fold tableReply dashboardsReply.
  destruct tableReply as [tableResponse | et],
           dashboardsReply as [dashboardsResponse | ed]; simpl; try reflexivity.
  destruct (arrives_first net _ _); reflexivity.
Qed.

(** X5. [getColumnDescription] and [updateColumnDescription] accept the
    same arguments: on a given [columnIndex] and [tableData] either both
    return a promise or both throw, and then the same error. *)
Theorem column_functions_throw_alike (columnIndex : Z) (tableData : loc)
    (h : Heap) (description : string) :
  match getColumnDescription columnIndex tableData h,
        updateColumnDescription description columnIndex tableData h with
  | Returned _, Returned _ => True
  | Threw r, Threw r' => r = r'
  | _, _ => False
  end.
Proof.
  unfold getColumnDescription, updateColumnDescription, tableAt.
  destruct (tables h !! tableData) as [t |]; simpl; [| reflexivity].
  destruct (columnAt h t columnIndex) as [column | r]; simpl; [exact I | reflexivity].
Qed.

(* ===================================================================== *)
(** ** Further properties: the owner-update chains *)
(* ===================================================================== *)



Lemma ownerUpdateRequest_calls_at_least (net : Net) (item : UpdateOwnerPayload)
    (tm : TableMetadata) (h : Heap) :
  (1 <= callsFired (log (run net (ownerUpdateRequest item tm) h)))%nat.
Proof.
  unfold callsFired. rewrite ownerUpdateRequest_log.
  destruct (respond net ApiAny _) as [updated | e1]; simpl; [| lia].
  destruct (respond net ApiUser _) as [fetched | e2]; simpl; [| lia].
  destruct (shouldSendNotification _); simpl; lia.
Qed.

(** X7. Over a whole [updateArray], [generateOwnerUpdateRequests] sends
    at least one call per element; exactly one per element when every
    owner update is refused (no user is fetched, nobody notified); and
    at most two per element when no fetched user is to be notified. *)
Theorem generateOwnerUpdateRequests_call_count (net : Net)
    (updateArray : list UpdateOwnerPayload) (tableData : loc) (h h' : Heap)
    (tm : TableMetadata) :
  tables h !! tableData = Some tm ->
  exists requests,
    generateOwnerUpdateRequests updateArray tableData h = Returned requests /\
    (length updateArray <= callsOfAll net requests h')%nat /\
    ((forall item, In item updateArray ->
        exists e,
          respond net ApiAny (createOwnerUpdatePayload item (key tm)) = inr e) ->
     callsOfAll net requests h' = length updateArray) /\
    ((forall u, shouldSendNotification u = false) ->
     (callsOfAll net requests h' <= 2 * length updateArray)%nat).
Proof.
  intros Ht.
  exists (map (fun item => ownerUpdateRequest item tm) updateArray).
  split; [now apply generateOwnerUpdateRequests_map |].
  unfold callsOfAll. repeat split.
  - induction updateArray as [| item rest IH];
      cbn [map fold_right Datatypes.length]; [lia |].
    pose proof (ownerUpdateRequest_calls_at_least net item tm h'). lia.
  - induction updateArray as [| item rest IH]; intros Hrefused;
      cbn [map fold_right Datatypes.length]; [reflexivity |].
    rewrite IH by (intros it Hit; apply Hrefused; now right).
    destruct (Hrefused item (or_introl eq_refl)) as [e He].
    unfold callsFired. rewrite ownerUpdateRequest_log, He. reflexivity.
  - intros Hnever.
    induction updateArray as [| item rest IH];
      cbn [map fold_right Datatypes.length]; [lia |].
    assert (callsFired (log (run net (ownerUpdateRequest item tm) h')) <= 2)%nat.
    { unfold callsFired. rewrite ownerUpdateRequest_log.
      destruct (respond net ApiAny _) as [updated | e1]; simpl; [| lia].
      destruct (respond net ApiUser _) as [fetched | e2]; simpl; [| lia].
      rewrite Hnever. simpl. lia. }
    lia.
Qed.

(** X8. Splitting [updateArray] splits the result:
    [generateOwnerUpdateRequests] of two arrays one after the other is
    the requests of the first followed by the requests of the second,
    and it throws when one of the two parts does. *)
Theorem generateOwnerUpdateRequests_app (front back : list UpdateOwnerPayload)
    (tableData : loc) (h : Heap) :
  generateOwnerUpdateRequests (front ++ back)%list tableData h =
  (try first <- generateOwnerUpdateRequests front tableData h;
   try second <- generateOwnerUpdateRequests back tableData h;
   Returned (first ++ second)%list).
Proof.
  destruct (tables h !! tableData) as [tm |] eqn:Ht.
  - rewrite !(generateOwnerUpdateRequests_map _ _ _ _ Ht). simpl.
    now rewrite map_app.
  - unfold generateOwnerUpdateRequests.
    destruct front as [| item rest]; simpl.
    + destruct back as [| item rest]; [reflexivity |].
      simpl. unfold tableAt. rewrite Ht. reflexivity.
    + unfold tableAt. rewrite Ht. reflexivity.
Qed.

(* ===================================================================== *)
(** ** Further properties: the two getters that write *)
(* ===================================================================== *)

Lemma getTableDescription_run (net : Net) (h h' : Heap) (tableData : loc)
    (tm : TableMetadata) :
  tables h !! tableData = Some tm ->
  exists p,
    getTableDescription tableData h = Returned p /\
    run net p h' =
    let call := tableDescriptionCall tm in
    match respond net ApiDescription call with
    | inl response =>
        match tables h' !! tableData with
        | Some tm' =>
            mkRun
              (writeTable tableData
                 (setTableDescription (api_description (resp_data response)) tm') h')
              [Fired call; Replied call None] (Fulfilled tableData)
        | None => mkRun h' [Fired call; Replied call None] (Rejected TypeError)
        end
    | inr e => mkRun h' [Fired call; Replied call (Some e)] (Rejected (Transport e))
    end.
Proof.
  intros Ht. eexists. split.
  - unfold getTableDescription, tableAt. rewrite Ht. reflexivity.
  - simpl. destruct (respond net ApiDescription (tableDescriptionCall tm));
      simpl; [| reflexivity].
    unfold tableAt. destruct (tables h' !! tableData); reflexivity.
Qed.

Lemma getColumnDescription_run (net : Net) (h h' : Heap) (tableData : loc)
    (tm : TableMetadata) (columnIndex : Z) (cl : loc) (column : TableColumn) :
  tables h !! tableData = Some tm ->
  columnAt h tm columnIndex = Returned (cl, column) ->
  exists p,
    getColumnDescription columnIndex tableData h = Returned p /\
    run net p h' =
    let call := columnDescriptionCall tm (name column) in
    match respond net ApiDescription call with
    | inl response =>
        match (try t' <- tableAt h' tableData; columnAt h' t' columnIndex) with
        | Returned target =>
            mkRun
              (writeColumn (fst target)
                 (setColumnDescription (api_description (resp_data response))
                    (snd target)) h')
              [Fired call; Replied call None] (Fulfilled tableData)
        | Threw r => mkRun h' [Fired call; Replied call None] (Rejected r)
        end
    | inr e => mkRun h' [Fired call; Replied call (Some e)] (Rejected (Transport e))
    end.
Proof.
  intros Ht Hat. eexists. split.
  - unfold getColumnDescription, tableAt. rewrite Ht. simpl. rewrite Hat. reflexivity.
  - simpl. destruct (respond net ApiDescription _); simpl; [| reflexivity].
    unfold tableAt. destruct (tables h' !! tableData) as [t' |]; simpl;
      [| reflexivity].
    destruct (columnAt h' t' columnIndex); reflexivity.
Qed.

(** X9. The requests of the two getters: [getTableDescription] sends
    one GET to [get_table_description] with the query string of
    [tableData.key]; [getColumnDescription], for [columnIndex] in bounds,
    sends one GET to [get_column_description] with that query string
    followed by [&column_name=] and the name of the column at
    [columnIndex]. *)
Theorem getter_requests (net : Net) (h : Heap) (tableData : loc)
    (tm : TableMetadata) :
  tables h !! tableData = Some tm ->
  (exists p,
     getTableDescription tableData h = Returned p /\
     forall h', fired (log (run net p h')) =
       [ {| method := GET;
            url := "/api/metadata/v0" +:+ "/get_table_description?"
                     +:+ getTableQueryParams (key tm) None None;
            req_data := None |} ]) /\
  (forall (columnIndex : Z) (cl : loc) (column : TableColumn),
     0 <= columnIndex ->
     columns tm !! Z.to_nat columnIndex = Some cl ->
     cols h !! cl = Some column ->
     exists p,
       getColumnDescription columnIndex tableData h = Returned p /\
       forall h', fired (log (run net p h')) =
         [ {| method := GET;
              url := "/api/metadata/v0" +:+ "/get_column_description?"
                       +:+ getTableQueryParams (key tm) None None
                       +:+ "&column_name=" +:+ name column;
              req_data := None |} ]).
Proof.
  intros Ht. split.
  - destruct (getTableDescription_run net h h tableData tm Ht) as (p & Hp & _).
    exists p. split; [exact Hp |]. intros h'.
    destruct (getTableDescription_run net h h' tableData tm Ht) as (p' & Hp' & Hrun).
    rewrite Hp in Hp'. injection Hp' as <-. rewrite Hrun. simpl.
    destruct (respond net ApiDescription _); [| reflexivity].
    destruct (tables h' !! tableData); reflexivity.
  - intros columnIndex cl column Hnn Hcl Hcol.
    pose proof (columnAt_in_range h tm columnIndex cl column Hnn Hcl Hcol) as Hat.
    destruct (getColumnDescription_run net h h tableData tm columnIndex cl column
                Ht Hat) as (p & Hp & _).
    exists p. split; [exact Hp |]. intros h'.
    destruct (getColumnDescription_run net h h' tableData tm columnIndex cl column
                Ht Hat) as (p' & Hp' & Hrun).
    rewrite Hp in Hp'. injection Hp' as <-. rewrite Hrun. simpl.
    destruct (respond net ApiDescription _); [| reflexivity].
    destruct (bindOutcome _ _); reflexivity.
Qed.

(** X10. [getColumnDescription] reads [tableData.columns[columnIndex]]
    again when the reply is there: when by then [columnIndex] is outside
    the array, the request has been sent and has succeeded, yet the
    promise rejects with a [TypeError] and nothing is written. *)
Theorem getColumnDescription_stale_index (net : Net) (h h' : Heap)
    (tableData : loc) (tm tm' : TableMetadata) (columnIndex : Z) (cl : loc)
    (column : TableColumn) (response : AxiosResponse DescriptionAPI) :
  tables h !! tableData = Some tm ->
  0 <= columnIndex ->
  columns tm !! Z.to_nat columnIndex = Some cl ->
  cols h !! cl = Some column ->
  tables h' !! tableData = Some tm' ->
  Z.of_nat (length (columns tm')) <= columnIndex ->
  respond net ApiDescription (columnDescriptionCall tm (name column)) = inl response ->
  exists p,
    getColumnDescription columnIndex tableData h = Returned p /\
    result (run net p h') = Rejected TypeError /\
    final_heap (run net p h') = h' /\
    log (run net p h') =
      [Fired (columnDescriptionCall tm (name column));
       Replied (columnDescriptionCall tm (name column)) None].
Proof.
  intros Ht Hnn Hcl Hcol Ht' Hout Hok.
  pose proof (columnAt_in_range h tm columnIndex cl column Hnn Hcl Hcol) as Hat.
  destruct (getColumnDescription_run net h h' tableData tm columnIndex cl column
              Ht Hat) as (p & Hp & Hrun).
  exists p. split; [exact Hp |].
  rewrite Hrun. simpl. rewrite Hok. unfold tableAt. rewrite Ht'. simpl.
  rewrite (columnAt_out_of_range h' tm' columnIndex) by (right; exact Hout).
  repeat split; reflexivity.
Qed.

(** X11. Fetching a description twice is the same as fetching it once:
    after [getTableDescription] (or [getColumnDescription], for
    [columnIndex] in bounds) has run, calling it again on the same
    arguments, against a network that answers the request as before,
    settles in the same way and leaves every object as the first call
    left it. *)
Theorem getters_idempotent (net : Net) (h : Heap) (tableData : loc)
    (tm : TableMetadata) :
  tables h !! tableData = Some tm ->
  (exists p again,
     getTableDescription tableData h = Returned p /\
     getTableDescription tableData (final_heap (run net p h)) = Returned again /\
     final_heap (run net again (final_heap (run net p h)))
       = final_heap (run net p h) /\
     result (run net again (final_heap (run net p h))) = result (run net p h)) /\
  (forall (columnIndex : Z) (cl : loc) (column : TableColumn),
     0 <= columnIndex ->
     columns tm !! Z.to_nat columnIndex = Some cl ->
     cols h !! cl = Some column ->
     exists p again,
       getColumnDescription columnIndex tableData h = Returned p /\
       getColumnDescription columnIndex tableData (final_heap (run net p h))
         = Returned again /\
       final_heap (run net again (final_heap (run net p h)))
         = final_heap (run net p h) /\
       result (run net again (final_heap (run net p h))) = result (run net p h)).
Proof.
  intros Ht. split.
  - destruct (getTableDescription_run net h h tableData tm Ht) as (p & Hp & Hrun).
    cbv zeta in Hrun. rewrite Ht in Hrun.
    destruct (respond net ApiDescription (tableDescriptionCall tm))
      as [response | e] eqn:Hreply.
    + set (tm1 := setTableDescription (api_description (resp_data response)) tm)
        in *.
      assert (Ht1 : tables (writeTable tableData tm1 h) !! tableData = Some tm1)
        by apply lookup_insert_eq.
      destruct (getTableDescription_run net (writeTable tableData tm1 h)
                  (writeTable tableData tm1 h) tableData tm1 Ht1)
        as (again & Hagain & Hrun').
      cbv zeta in Hrun'.
      change (tableDescriptionCall tm1) with (tableDescriptionCall tm) in Hrun'.
      rewrite Hreply, Ht1 in Hrun'.
      exists p, again. rewrite Hrun. cbn [final_heap result].
      split; [exact Hp |]. split; [exact Hagain |].
      rewrite Hrun'. cbn [final_heap result]. split; [| reflexivity].
      unfold writeTable. cbn [tables cols]. rewrite insert_insert_eq. reflexivity.
    + exists p, p. rewrite Hrun. cbn [final_heap result].
      split; [exact Hp |]. split; [exact Hp |].
      rewrite Hrun. split; reflexivity.
  - intros columnIndex cl column Hnn Hcl Hcol.
    pose proof (columnAt_in_range h tm columnIndex cl column Hnn Hcl Hcol) as Hat.
    destruct (getColumnDescription_run net h h tableData tm columnIndex cl column
                Ht Hat) as (p & Hp & Hrun).
    cbv zeta in Hrun. unfold tableAt in Hrun. rewrite Ht in Hrun.
    cbn [bindOutcome] in Hrun. rewrite Hat in Hrun. cbn [fst snd] in Hrun.
    destruct (respond net ApiDescription (columnDescriptionCall tm (name column)))
      as [response | e] eqn:Hreply.
    + set (column1 :=
             setColumnDescription (api_description (resp_data response)) column)
        in *.
      assert (Ht1 : tables (writeColumn cl column1 h) !! tableData = Some tm)
        by exact Ht.
      assert (Hat1 : columnAt (writeColumn cl column1 h) tm columnIndex
                     = Returned (cl, column1)).
      { apply columnAt_in_range; [exact Hnn | exact Hcl |].
        apply lookup_insert_eq. }
      destruct (getColumnDescription_run net (writeColumn cl column1 h)
                  (writeColumn cl column1 h) tableData tm columnIndex cl column1
                  Ht1 Hat1) as (again & Hagain & Hrun').
      cbv zeta in Hrun'.
      change (name column1) with (name column) in Hrun'.
      rewrite Hreply in Hrun'. unfold tableAt in Hrun'.
      rewrite Ht1 in Hrun'. cbn [bindOutcome] in Hrun'.
      rewrite Hat1 in Hrun'. cbn [fst snd] in Hrun'.
      exists p, again. rewrite Hrun. cbn [final_heap result].
      split; [exact Hp |]. split; [exact Hagain |].
      rewrite Hrun'. cbn [final_heap result]. split; [| reflexivity].
      unfold writeColumn. cbn [tables cols]. rewrite insert_insert_eq.
      reflexivity.
    + exists p, p. rewrite Hrun. cbn [final_heap result].
      split; [exact Hp |]. split; [exact Hp |].
      rewrite Hrun. split; reflexivity.
Qed.

(** X12. The two getters commute: fetching the description of the table
    and then that of one of its columns leaves the objects exactly as
    fetching the column's first and the table's second does, whichever
    of the two requests succeed. *)
Theorem getters_commute (net : Net) (h : Heap) (tableData : loc)
    (tm : TableMetadata) (columnIndex : Z) (cl : loc) (column : TableColumn) :
  tables h !! tableData = Some tm ->
  0 <= columnIndex ->
  columns tm !! Z.to_nat columnIndex = Some cl ->
  cols h !! cl = Some column ->
  exists tableFirst columnSecond columnFirst tableSecond,
    getTableDescription tableData h = Returned tableFirst /\
    getColumnDescription columnIndex tableData (final_heap (run net tableFirst h))
      = Returned columnSecond /\
    getColumnDescription columnIndex tableData h = Returned columnFirst /\
    getTableDescription tableData (final_heap (run net columnFirst h))
      = Returned tableSecond /\
    final_heap (run net columnSecond (final_heap (run net tableFirst h))) =
    final_heap (run net tableSecond (final_heap (run net columnFirst h))).
Proof.
  intros Ht Hnn Hcl Hcol.
  pose proof (columnAt_in_range h tm columnIndex cl column Hnn Hcl Hcol) as Hat.
  destruct (getTableDescription_run net h h tableData tm Ht)
    as (tableFirst & HtableFirst & HrunT).
  destruct (getColumnDescription_run net h h tableData tm columnIndex cl column
              Ht Hat) as (columnFirst & HcolumnFirst & HrunC).
  cbv zeta in HrunT, HrunC. unfold tableAt in HrunC.
  rewrite Ht in HrunT, HrunC. cbn [bindOutcome] in HrunC.
  rewrite Hat in HrunC. cbn [fst snd] in HrunC.
  assert (Hafter : forall hT tmT,
            tables hT !! tableData = Some tmT -> key tmT = key tm ->
            columns tmT = columns tm -> cols hT = cols h ->
            exists columnSecond,
              getColumnDescription columnIndex tableData hT = Returned columnSecond /\
              final_heap (run net columnSecond hT) =
              match respond net ApiDescription
                      (columnDescriptionCall tm (name column)) with
              | inl response =>
                  writeColumn cl
                    (setColumnDescription (api_description (resp_data response))
                       column) hT
              | inr _ => hT
              end).
  { intros hT tmT HtT Hkey Hcolumns Hcols.
    assert (HatT : columnAt hT tmT columnIndex = Returned (cl, column)).
    { apply columnAt_in_range; [exact Hnn | now rewrite Hcolumns |
                                now rewrite Hcols]. }
    destruct (getColumnDescription_run net hT hT tableData tmT columnIndex cl
                column HtT HatT) as (columnSecond & Hsecond & Hrun).
    exists columnSecond. split; [exact Hsecond |].
    rewrite Hrun. cbv zeta. unfold columnDescriptionCall. rewrite Hkey.
    fold (columnDescriptionCall tm (name column)).
    destruct (respond net ApiDescription (columnDescriptionCall tm (name column)));
      [| reflexivity].
    unfold tableAt. rewrite HtT. cbn [bindOutcome]. rewrite HatT. reflexivity. }
  assert (Hbefore : forall hC,
            tables hC !! tableData = Some tm ->
            exists tableSecond,
              getTableDescription tableData hC = Returned tableSecond /\
              final_heap (run net tableSecond hC) =
              match respond net ApiDescription (tableDescriptionCall tm) with
              | inl response =>
                  writeTable tableData
                    (setTableDescription (api_description (resp_data response)) tm)
                    hC
              | inr _ => hC
              end).
  { intros hC HtC.
    destruct (getTableDescription_run net hC hC tableData tm HtC)
      as (tableSecond & Hsecond & Hrun).
    exists tableSecond. split; [exact Hsecond |].
    rewrite Hrun. cbv zeta.
    destruct (respond net ApiDescription (tableDescriptionCall tm));
      [| reflexivity].
    rewrite HtC. reflexivity. }
  destruct (respond net ApiDescription (tableDescriptionCall tm))
    as [tableResponse | et];
    destruct (respond net ApiDescription (columnDescriptionCall tm (name column)))
      as [columnResponse | ec].
  - destruct (Hafter (writeTable tableData
                        (setTableDescription
                           (api_description (resp_data tableResponse)) tm) h)
                (setTableDescription (api_description (resp_data tableResponse)) tm)
                (lookup_insert_eq _ _ _) eq_refl eq_refl eq_refl)
      as (columnSecond & Hsecond & HheapA).
    destruct (Hbefore (writeColumn cl
                         (setColumnDescription
                            (api_description (resp_data columnResponse)) column) h)
                Ht) as (tableSecond & Hsecond' & HheapB).
    exists tableFirst, columnSecond, columnFirst, tableSecond.
    rewrite HrunT, HrunC. cbn [final_heap].
    repeat split; try assumption. rewrite HheapA, HheapB. reflexivity.
  - destruct (Hafter (writeTable tableData
                        (setTableDescription
                           (api_description (resp_data tableResponse)) tm) h)
                (setTableDescription (api_description (resp_data tableResponse)) tm)
                (lookup_insert_eq _ _ _) eq_refl eq_refl eq_refl)
      as (columnSecond & Hsecond & HheapA).
    destruct (Hbefore h Ht) as (tableSecond & Hsecond' & HheapB).
    exists tableFirst, columnSecond, columnFirst, tableSecond.
    rewrite HrunT, HrunC. cbn [final_heap].
    repeat split; try assumption. rewrite HheapA, HheapB. reflexivity.
  - destruct (Hafter h tm Ht eq_refl eq_refl eq_refl)
      as (columnSecond & Hsecond & HheapA).
    destruct (Hbefore (writeColumn cl
                         (setColumnDescription
                            (api_description (resp_data columnResponse)) column) h)
                Ht) as (tableSecond & Hsecond' & HheapB).
    exists tableFirst, columnSecond, columnFirst, tableSecond.
    rewrite HrunT, HrunC. cbn [final_heap].
    repeat split; try assumption. rewrite HheapA, HheapB. reflexivity.
  - destruct (Hafter h tm Ht eq_refl eq_refl eq_refl)
      as (columnSecond & Hsecond & HheapA).
    destruct (Hbefore h Ht) as (tableSecond & Hsecond' & HheapB).
    exists tableFirst, columnSecond, columnFirst, tableSecond.
    rewrite HrunT, HrunC. cbn [final_heap].
    repeat split; try assumption. rewrite HheapA, HheapB. reflexivity.
Qed.

End TableMetadataApi.

(* ===================================================================== *)
(** ** The functions on the sample inputs *)
(* ===================================================================== *)

(** The preview request is refused with a 500 that carries a partial
    payload. *)
Lemma getPreviewData_failure_witness :
  respond (Sample.refuseAll Sample.partialError) ApiPreview
          (previewCall (JObj [("schema", JStr "core")]))
    = inr Sample.partialError /\
  result (run (Sample.refuseAll Sample.partialError)
              (getPreviewData (JObj [("schema", JStr "core")])) Sample.heap) =
  Rejected (PreviewFailure (JObj [("error_text", JStr "timeout")]) (Some 500)).
Proof.
  split; [reflexivity |].
  rewrite (getPreviewData_failure (Sample.refuseAll Sample.partialError)
             (JObj [("schema", JStr "core")]) Sample.heap Sample.partialError);
    reflexivity.
Defined.

(** The chain of the second of two owners, every call accepted. *)
Lemma generateOwnerUpdateRequests_chain_witness :
  tables Sample.heap !! 1%positive = Some Sample.rides /\
  [Sample.ada; Sample.bob] !! 1%nat = Some Sample.bob /\
  exists requests request,
    generateOwnerUpdateRequests Sample.createOwnerUpdatePayload
      Sample.createOwnerNotificationData Sample.shouldSendNotification
      [Sample.ada; Sample.bob] 1%positive Sample.heap = Returned requests /\
    requests !! 1%nat = Some request /\
    fired (log (run Sample.acceptAll request Sample.heap)) =
      [ {| method := DELETE;
           url := "/api/metadata/v0/update_table_owner";
           req_data := Some (JObj [("key", JStr "hive://gold.core/rides");
                                   ("owner", JStr "bob")]) |};
        {| method := GET;
           url := "/api/metadata/v0/user?user_id=bob";
           req_data := None |};
        {| method := POST;
           url := "/api/mail/v0/notification";
           req_data := Some (JObj [("recipients", JArr [JStr "bob"]);
                                   ("resource", JStr "hive://gold.core/rides")]) |} ].
Proof.
  split; [reflexivity |]. split; [reflexivity |].
  destruct (generateOwnerUpdateRequests_chain Sample.createOwnerUpdatePayload
              Sample.createOwnerNotificationData Sample.shouldSendNotification
              Sample.acceptAll [Sample.ada; Sample.bob] 1%positive Sample.heap
              Sample.rides 1%nat Sample.bob eq_refl eq_refl)
    as (requests & request & Hreturned & Hat & Hlog).
  exists requests, request.
  split; [exact Hreturned |]. split; [exact Hat |].
  rewrite (Hlog Sample.heap). reflexivity.
Defined.

Lemma generateOwnerUpdateRequests_one_per_element_witness :
  tables Sample.heap !! 1%positive = Some Sample.rides /\
  exists requests,
    generateOwnerUpdateRequests Sample.createOwnerUpdatePayload
      Sample.createOwnerNotificationData Sample.shouldSendNotification
      [Sample.ada; Sample.bob] 1%positive Sample.heap = Returned requests /\
    length requests = 2%nat.
Proof.
  split; [reflexivity |].
  destruct (generateOwnerUpdateRequests_one_per_element
              Sample.createOwnerUpdatePayload Sample.createOwnerNotificationData
              Sample.shouldSendNotification [Sample.ada; Sample.bob] 1%positive
              Sample.heap Sample.rides eq_refl)
    as (requests & Hreturned & Hlength & _).
  exists requests. split; [exact Hreturned | exact Hlength].
Defined.

(** Every call refused: the promise of [getTableDescription] rejects with
    the error of the network. *)
Lemma transport_error_propagates_witness :
  exists p,
    getTableDescription Sample.getTableQueryParams 1%positive Sample.heap
      = Returned p /\
    firstFailure (log (run (Sample.refuseAll Sample.networkError) p Sample.heap))
      = Some Sample.networkError /\
    result (run (Sample.refuseAll Sample.networkError) p Sample.heap)
      = Rejected (Transport Sample.networkError).
Proof.
  eexists. split; [reflexivity |]. split; [reflexivity |].
  apply (proj1 (proj2 (transport_error_propagates
                         Sample.getTableQueryParams Sample.getRelatedDashboardSlug
                         Sample.getTableDataFromResponseData
                         Sample.getTableOwnersFromResponseData
                         Sample.createOwnerUpdatePayload
                         Sample.createOwnerNotificationData
                         Sample.shouldSendNotification
                         (Sample.refuseAll Sample.networkError)
                         Sample.heap Sample.heap))
           1%positive _ eq_refl).
  reflexivity.
Defined.

Lemma update_description_payloads_witness :
  tables Sample.heap !! 1%positive = Some Sample.rides /\
  0 <= 1 < Z.of_nat (length (columns Sample.rides)) /\
  columns Sample.rides !! Z.to_nat 1 = Some 3%positive /\
  cols Sample.heap !! 3%positive =
    Some {| name := "fare"; col_description := "stale"; col_rest := JNull |} /\
  (exists p,
     updateTableDescription "rides, one row per ride" 1%positive Sample.heap
       = Returned p /\
     fired (log (run Sample.acceptAll p Sample.heap)) =
       [ {| method := PUT;
            url := "/api/metadata/v0/put_table_description";
            req_data :=
              Some (JObj [("description", JStr "rides, one row per ride");
                          ("key", JStr "hive://gold.core/rides");
                          ("source", JStr "user")]) |} ]) /\
  (exists p,
     updateColumnDescription "fare in cents" 1 1%positive Sample.heap = Returned p /\
     fired (log (run Sample.acceptAll p Sample.heap)) =
       [ {| method := PUT;
            url := "/api/metadata/v0/put_column_description";
            req_data :=
              Some (JObj [("description", JStr "fare in cents");
                          ("column_name", JStr "fare");
                          ("key", JStr "hive://gold.core/rides");
                          ("source", JStr "user")]) |} ]).
Proof.
  split; [reflexivity |]. split; [simpl; lia |].
  split; [reflexivity |]. split; [reflexivity |]. split.
  - destruct (proj1 (update_description_payloads Sample.acceptAll Sample.heap
                       1%positive Sample.rides "rides, one row per ride" eq_refl))
      as (p & Hreturned & Hfired).
    exists p. split; [exact Hreturned | exact (Hfired Sample.heap)].
  - destruct (proj2 (update_description_payloads Sample.acceptAll Sample.heap
                       1%positive Sample.rides "fare in cents" eq_refl)
                1 3%positive
                {| name := "fare"; col_description := "stale"; col_rest := JNull |}
                ltac:(simpl; lia) eq_refl eq_refl)
      as (p & Hreturned & Hfired).
    exists p. split; [exact Hreturned | exact (Hfired Sample.heap)].
Defined.

Lemma getters_write_description_only_witness :
  tables Sample.heap !! 1%positive = Some Sample.rides /\
  0 <= 1 /\
  columns Sample.rides !! Z.to_nat 1 = Some 3%positive /\
  cols Sample.heap !! 3%positive =
    Some {| name := "fare"; col_description := "stale"; col_rest := JNull |} /\
  (exists p,
     getTableDescription Sample.getTableQueryParams 1%positive Sample.heap
       = Returned p /\
     result (run Sample.acceptAll p Sample.heap) = Fulfilled 1%positive /\
     final_heap (run Sample.acceptAll p Sample.heap) =
       {| tables :=
            <[1%positive :=
                {| key := "hive://gold.core/rides";
                   description := "fresh description";
                   columns := [2%positive; 3%positive];
                   table_rest := JObj [("schema", JStr "core")] |}]>
              (tables Sample.heap);
          cols := cols Sample.heap |}) /\
  (exists p,
     getColumnDescription Sample.getTableQueryParams 1 1%positive Sample.heap
       = Returned p /\
     result (run Sample.acceptAll p Sample.heap) = Fulfilled 1%positive /\
     final_heap (run Sample.acceptAll p Sample.heap) =
       {| tables := tables Sample.heap;
          cols :=
            <[3%positive :=
                {| name := "fare"; col_description := "fresh description";
                   col_rest := JNull |}]>
              (cols Sample.heap) |}).
Proof.
  split; [reflexivity |]. split; [lia |].
  split; [reflexivity |]. split; [reflexivity |]. split.
  - destruct (proj1 (getters_write_description_only Sample.getTableQueryParams
                       Sample.acceptAll Sample.heap Sample.heap 1%positive
                       Sample.rides Sample.rides eq_refl eq_refl))
      as (p & Hreturned & Hwrite).
    exists p. split; [exact Hreturned |].
    exact (Hwrite _ eq_refl).
  - destruct (proj2 (getters_write_description_only Sample.getTableQueryParams
                       Sample.acceptAll Sample.heap Sample.heap 1%positive
                       Sample.rides Sample.rides eq_refl eq_refl)
                1 3%positive 3%positive
                {| name := "fare"; col_description := "stale"; col_rest := JNull |}
                {| name := "fare"; col_description := "stale"; col_rest := JNull |}
                ltac:(lia) eq_refl eq_refl eq_refl eq_refl)
      as (p & Hreturned & Hwrite).
    exists p. split; [exact Hreturned |].
    exact (Hwrite _ eq_refl).
Defined.

Lemma column_index_unchecked_witness :
  tables Sample.heap !! 1%positive = Some Sample.rides /\
  0 <= 1 < Z.of_nat (length (columns Sample.rides)) /\
  (forall cl, In cl (columns Sample.rides) -> is_Some (cols Sample.heap !! cl)) /\
  (2 < 0 \/ Z.of_nat (length (columns Sample.rides)) <= 2) /\
  (exists p,
     getColumnDescription Sample.getTableQueryParams 1 1%positive Sample.heap
       = Returned p) /\
  getColumnDescription Sample.getTableQueryParams 2 1%positive Sample.heap
    = Threw TypeError /\
  updateColumnDescription "fare in cents" 2 1%positive Sample.heap
    = Threw TypeError.
Proof.
  split; [reflexivity |].
  assert (Hin : 0 <= 1 < Z.of_nat (length (columns Sample.rides)))
    by (simpl; lia).
  assert (Hcols : forall cl, In cl (columns Sample.rides) ->
                             is_Some (cols Sample.heap !! cl)).
  { intros cl [<- | [<- | []]]; eexists; reflexivity. }
  assert (Hout : 2 < 0 \/ Z.of_nat (length (columns Sample.rides)) <= 2)
    by (right; simpl; lia).
  split; [exact Hin |]. split; [exact Hcols |]. split; [exact Hout |].
  split.
  - destruct (proj1 (column_index_unchecked Sample.getTableQueryParams
                       Sample.acceptAll Sample.heap 1%positive Sample.rides 1
                       "fare in cents" eq_refl) Hin Hcols)
      as (cl & column & _ & _ & _ & Hget & _).
    exact Hget.
  - destruct (proj2 (column_index_unchecked Sample.getTableQueryParams
                       Sample.acceptAll Sample.heap 1%positive Sample.rides 2
                       "fare in cents" eq_refl) Hout)
      as (_ & Hget & Hput & _).
    split; [exact Hget | exact Hput].
Defined.

Lemma heap_untouched_witness :
  exists p,
    updateTableDescription "rides, one row per ride" 1%positive Sample.heap
      = Returned p /\
    final_heap (run Sample.acceptAll p Sample.heap) = Sample.heap.
Proof.
  eexists. split; [reflexivity |].
  apply (proj1 (proj2 (heap_untouched
                         Sample.getTableQueryParams Sample.getRelatedDashboardSlug
                         Sample.getTableDataFromResponseData
                         Sample.getTableOwnersFromResponseData
                         Sample.createOwnerUpdatePayload
                         Sample.createOwnerNotificationData
                         Sample.shouldSendNotification
                         Sample.acceptAll Sample.heap Sample.heap))
           "rides, one row per ride" 1%positive _ eq_refl).
Defined.

(** One owner, every call accepted, a user to notify: three calls. *)
Lemma generateOwnerUpdateRequests_sends_three_calls :
  ~ (callsOfList Sample.acceptAll
       (generateOwnerUpdateRequests Sample.createOwnerUpdatePayload
          Sample.createOwnerNotificationData Sample.shouldSendNotification
          [Sample.ada] 1%positive Sample.heap)
       Sample.heap <= 2)%nat.
Proof.
  change (~ (3 <= 2)%nat). lia.
Qed.

(** A successful [getTableDescription] has written to its argument. *)
Lemma getTableDescription_writes_its_argument :
  exists p,
    getTableDescription Sample.getTableQueryParams 1%positive Sample.heap
      = Returned p /\
    description <$> tables Sample.heap !! 1%positive = Some "stale description" /\
    description <$> tables (final_heap (run Sample.acceptAll p Sample.heap))
                      !! 1%positive = Some "fresh description" /\
    final_heap (run Sample.acceptAll p Sample.heap) <> Sample.heap.
Proof.
  eexists. split; [reflexivity |].
  split; [reflexivity |]. split; [reflexivity |].
  intros Heq.
  apply (f_equal (fun h => description <$> tables h !! 1%positive)) in Heq.
  vm_compute in Heq. discriminate Heq.
Qed.

(* ===================================================================== *)
(** ** The further properties on the sample inputs *)
(* ===================================================================== *)


Lemma getTableOwners_matches_getTableData_witness :
  exists view,
    result (run Sample.acceptAll
              (getTableData Sample.getTableQueryParams Sample.getRelatedDashboardSlug
                 Sample.getTableDataFromResponseData
                 Sample.getTableOwnersFromResponseData
                 "hive://gold.core/rides" None None) Sample.heap)
      = Fulfilled view /\
    result (run Sample.acceptAll
              (getTableOwners Sample.getTableQueryParams
                 Sample.getTableOwnersFromResponseData "hive://gold.core/rides")
              Sample.heap)
      = Fulfilled (owners view).
Proof.
  eexists. split; [reflexivity |].
  apply (getTableOwners_matches_getTableData Sample.getTableQueryParams
           Sample.getRelatedDashboardSlug Sample.getTableDataFromResponseData
           Sample.getTableOwnersFromResponseData Sample.acceptAll
           "hive://gold.core/rides" Sample.heap _ eq_refl).
Defined.

(** Both requests refused: the error is that of the reply that came
    first; with one of them accepted the order does not matter. *)
Lemma getTableData_arrival_order_witness :
  (forall a c,
     respond (Sample.secondFirst Sample.acceptAll) a c = respond Sample.acceptAll a c) /\
  result (run (Sample.secondFirst Sample.acceptAll)
            (getTableData Sample.getTableQueryParams Sample.getRelatedDashboardSlug
               Sample.getTableDataFromResponseData
               Sample.getTableOwnersFromResponseData
               "hive://gold.core/rides" None None) Sample.heap) =
  result (run Sample.acceptAll
            (getTableData Sample.getTableQueryParams Sample.getRelatedDashboardSlug
               Sample.getTableDataFromResponseData
               Sample.getTableOwnersFromResponseData
               "hive://gold.core/rides" None None) Sample.heap).
Proof.
  split; [reflexivity |].
  exact (getTableData_arrival_order Sample.getTableQueryParams
           Sample.getRelatedDashboardSlug Sample.getTableDataFromResponseData
           Sample.getTableOwnersFromResponseData Sample.acceptAll
           (Sample.secondFirst Sample.acceptAll) "hive://gold.core/rides" None None
           Sample.heap (fun _ _ => eq_refl)).
Defined.


(** Two owners, every update refused: two calls in all. *)
Lemma generateOwnerUpdateRequests_call_count_witness :
  tables Sample.heap !! 1%positive = Some Sample.rides /\
  (forall item, In item [Sample.ada; Sample.bob] ->
     exists e,
       respond (Sample.refuseAll Sample.networkError) ApiAny
         (Sample.createOwnerUpdatePayload item (key Sample.rides)) = inr e) /\
  exists requests,
    generateOwnerUpdateRequests Sample.createOwnerUpdatePayload
      Sample.createOwnerNotificationData Sample.shouldSendNotification
      [Sample.ada; Sample.bob] 1%positive Sample.heap = Returned requests /\
    callsOfAll (Sample.refuseAll Sample.networkError) requests Sample.heap = 2%nat.
Proof.
  split; [reflexivity |].
  assert (Hrefused : forall item, In item [Sample.ada; Sample.bob] ->
            exists e,
              respond (Sample.refuseAll Sample.networkError) ApiAny
                (Sample.createOwnerUpdatePayload item (key Sample.rides)) = inr e).
  { intros item _. exists Sample.networkError. reflexivity. }
  split; [exact Hrefused |].
  destruct (generateOwnerUpdateRequests_call_count Sample.createOwnerUpdatePayload
              Sample.createOwnerNotificationData Sample.shouldSendNotification
              (Sample.refuseAll Sample.networkError) [Sample.ada; Sample.bob]
              1%positive Sample.heap Sample.heap Sample.rides eq_refl)
    as (requests & Hreturned & _ & Hexact & _).
  exists requests. split; [exact Hreturned | exact (Hexact Hrefused)].
Defined.

Lemma getter_requests_witness :
  tables Sample.heap !! 1%positive = Some Sample.rides /\
  0 <= 1 /\
  columns Sample.rides !! Z.to_nat 1 = Some 3%positive /\
  cols Sample.heap !! 3%positive =
    Some {| name := "fare"; col_description := "stale"; col_rest := JNull |} /\
  exists p,
    getColumnDescription Sample.getTableQueryParams 1 1%positive Sample.heap
      = Returned p /\
    fired (log (run Sample.acceptAll p Sample.heap)) =
      [ {| method := GET;
           url := "/api/metadata/v0/get_column_description?key=hive://gold.core/rides&index=&source=&column_name=fare";
           req_data := None |} ].
Proof.
  split; [reflexivity |]. split; [lia |].
  split; [reflexivity |]. split; [reflexivity |].
  destruct (proj2 (getter_requests Sample.getTableQueryParams Sample.acceptAll
                     Sample.heap 1%positive Sample.rides eq_refl)
              1 3%positive
              {| name := "fare"; col_description := "stale"; col_rest := JNull |}
              ltac:(lia) eq_refl eq_refl)
    as (p & Hreturned & Hfired).
  exists p. split; [exact Hreturned | exact (Hfired Sample.heap)].
Defined.

(** The description of the second column is asked for; the table has one
    column left when the reply is there. *)
Lemma getColumnDescription_stale_index_witness :
  tables Sample.heap !! 1%positive = Some Sample.rides /\
  Z.of_nat (length [2%positive]) <= 1 /\
  exists p,
    getColumnDescription Sample.getTableQueryParams 1 1%positive Sample.heap
      = Returned p /\
    result (run Sample.acceptAll p Sample.shrunk) = Rejected TypeError /\
    final_heap (run Sample.acceptAll p Sample.shrunk) = Sample.shrunk.
Proof.
  split; [reflexivity |]. split; [simpl; lia |].
  destruct (getColumnDescription_stale_index Sample.getTableQueryParams
              Sample.acceptAll Sample.heap Sample.shrunk 1%positive Sample.rides
              {| key := key Sample.rides; description := description Sample.rides;
                 columns := [2%positive]; table_rest := table_rest Sample.rides |}
              1 3%positive
              {| name := "fare"; col_description := "stale"; col_rest := JNull |}
              {| resp_data := Sample.body ApiDescription; status := 200 |}
              eq_refl ltac:(lia) eq_refl eq_refl eq_refl ltac:(simpl; lia) eq_refl)
    as (p & Hreturned & Hresult & Hheap & _).
  exists p. split; [exact Hreturned |]. split; [exact Hresult | exact Hheap].
Defined.

Lemma getters_idempotent_witness :
  tables Sample.heap !! 1%positive = Some Sample.rides /\
  exists p again,
    getTableDescription Sample.getTableQueryParams 1%positive Sample.heap
      = Returned p /\
    getTableDescription Sample.getTableQueryParams 1%positive
      (final_heap (run Sample.acceptAll p Sample.heap)) = Returned again /\
    final_heap (run Sample.acceptAll again
                  (final_heap (run Sample.acceptAll p Sample.heap)))
      = final_heap (run Sample.acceptAll p Sample.heap).
Proof.
  split; [reflexivity |].
  destruct (proj1 (getters_idempotent Sample.getTableQueryParams Sample.acceptAll
                     Sample.heap 1%positive Sample.rides eq_refl))
    as (p & again & Hp & Hagain & Hheap & _).
  exists p, again. split; [exact Hp |]. split; [exact Hagain | exact Hheap].
Defined.

Lemma getters_commute_witness :
  tables Sample.heap !! 1%positive = Some Sample.rides /\
  0 <= 1 /\
  columns Sample.rides !! Z.to_nat 1 = Some 3%positive /\
  cols Sample.heap !! 3%positive =
    Some {| name := "fare"; col_description := "stale"; col_rest := JNull |} /\
  exists tableFirst columnSecond columnFirst tableSecond,
    getTableDescription Sample.getTableQueryParams 1%positive Sample.heap
      = Returned tableFirst /\
    getColumnDescription Sample.getTableQueryParams 1 1%positive
      (final_heap (run Sample.acceptAll tableFirst Sample.heap))
      = Returned columnSecond /\
    getColumnDescription Sample.getTableQueryParams 1 1%positive Sample.heap
      = Returned columnFirst /\
    getTableDescription Sample.getTableQueryParams 1%positive
      (final_heap (run Sample.acceptAll columnFirst Sample.heap))
      = Returned tableSecond /\
    final_heap (run Sample.acceptAll columnSecond
                  (final_heap (run Sample.acceptAll tableFirst Sample.heap))) =
    final_heap (run Sample.acceptAll tableSecond
                  (final_heap (run Sample.acceptAll columnFirst Sample.heap))).
Proof.
  split; [reflexivity |]. split; [lia |].
  split; [reflexivity |]. split; [reflexivity |].
  exact (getters_commute Sample.getTableQueryParams Sample.acceptAll Sample.heap
           1%positive Sample.rides 1 3%positive
           {| name := "fare"; col_description := "stale"; col_rest := JNull |}
           eq_refl ltac:(lia) eq_refl eq_refl).
Defined.
